(** * Web search component (forge/components/web/search.py)

    A shallow embedding of [WebSearchComponent]: the two commands
    [web_search] and [google], the command discovery [get_commands] and the
    helper [safe_google_results], together with the parts of the Python
    run time they rest on (text strings, the UTF-8 codec with the [ignore]
    error handler, [json.dumps]).

    Python text strings are sequences of code points, byte strings are
    sequences of 8-bit integers.  The two search providers and [json.loads]
    are library calls: they are taken as parameters of the model. *)

From Stdlib Require Import ZArith List Lia Bool Ascii String DecimalString.
Import ListNotations.

Local Open Scope Z_scope.

Set Warnings "-register-all".

(* ================================================================== *)
(** * Python values *)
(* ================================================================== *)

(** A [str] is a sequence of code points.  Python allows every code point
    of the range 0..0x10FFFF in a [str], lone surrogates included. *)
Definition str := list Z.

(** A [bytes] object: a sequence of integers in 0..255. *)
Definition bytes := list Z.

Definition valid_codepoint (c : Z) : Prop := 0 <= c <= 0x10FFFF.

Definition valid_str (s : str) : Prop := Forall valid_codepoint s.

(** Text literals of the source, written as Rocq strings. *)
Fixpoint lit (s : string) : str :=
  match s with
  | EmptyString => []
  | String a r => Z.of_N (N_of_ascii a) :: lit r
  end.

Arguments lit s%_string.

(** The two characters a Rocq string literal cannot hold conveniently. *)
Definition NL : str := [10].
Definition DQ : str := [34].

Definition str_eqb (a b : str) : bool :=
  if list_eq_dec Z.eq_dec a b then true else false.

(** Truth value of a [str]: [not s] holds of the empty string only. *)
Definition str_truthy (s : str) : bool :=
  match s with [] => false | _ :: _ => true end.

(** [sep.join(parts)] *)
Fixpoint str_join (sep : str) (parts : list str) : str :=
  match parts with
  | [] => []
  | [p] => p
  | p :: rest => p ++ sep ++ str_join sep rest
  end.

Fixpoint str_startswith (s prefix : str) : bool :=
  match prefix, s with
  | [], _ => true
  | _ :: _, [] => false
  | p :: prefix', c :: s' => (p =? c) && str_startswith s' prefix'
  end.

(** [needle in hay] for two strings: substring search. *)
Fixpoint str_contains (needle hay : str) : bool :=
  str_startswith hay needle
  || match hay with
     | [] => false
     | _ :: hay' => str_contains needle hay'
     end.

(** The dynamically typed values the component handles: what the JSON
    decoder and the API client hand back, and what the commands return. *)
Inductive value : Type :=
| VNone
| VBool (b : bool)
| VInt (n : Z)
| VStr (s : str)
| VList (l : list value)
| VDict (d : list (str * value)).

(** Insertion-ordered dictionary with string keys. *)
Fixpoint dict_get {A : Type} (d : list (str * A)) (k : str) : option A :=
  match d with
  | [] => None
  | (k', v) :: d' => if str_eqb k' k then Some v else dict_get d' k
  end.

(* ================================================================== *)
(** * Exceptions *)
(* ================================================================== *)

(** [googleapiclient.errors.HttpError]: the response status and the raw
    body of the response. *)
Record HttpErrorData : Type := mkHttpError {
  http_status : Z;
  http_content : bytes
}.

Inductive exn : Type :=
| KeyError (key : str)
| AttributeError
| TypeError
| AssertionError
| UnicodeDecodeError
| JSONDecodeError
| HttpError (e : HttpErrorData)
| ConfigurationError (msg : str)
| LibraryError (name : str).

Inductive pyresult (A : Type) : Type :=
| Ok (a : A)
| Raise (e : exn).

Arguments Ok {A} a.
Arguments Raise {A} e.

Definition bind {A B : Type} (m : pyresult A) (k : A -> pyresult B)
  : pyresult B :=
  match m with
  | Ok a => k a
  | Raise e => Raise e
  end.

Notation "x <- m ;; k" := (bind m (fun x => k))
  (at level 61, m at next level, right associativity).

Fixpoint mapM {A B : Type} (f : A -> pyresult B) (l : list A)
  : pyresult (list B) :=
  match l with
  | [] => Ok []
  | a :: l' => b <- f a ;; bs <- mapM f l' ;; Ok (b :: bs)
  end.

(* ================================================================== *)
(** * The UTF-8 codec *)
(* ================================================================== *)

Definition is_surrogate (c : Z) : bool := (0xD800 <=? c) && (c <=? 0xDFFF).

Definition is_continuation (b : Z) : bool := (0x80 <=? b) && (b <=? 0xBF).

(** The bytes of one code point.  A surrogate cannot be encoded; with
    [errors="ignore"] it contributes nothing. *)
Definition utf8_encode_cp (c : Z) : bytes :=
  if c <? 0x80 then [c]
  else if c <? 0x800 then
    [Z.lor 0xC0 (Z.shiftr c 6); Z.lor 0x80 (Z.land c 0x3F)]
  else if is_surrogate c then []
  else if c <? 0x10000 then
    [Z.lor 0xE0 (Z.shiftr c 12);
     Z.lor 0x80 (Z.land (Z.shiftr c 6) 0x3F);
     Z.lor 0x80 (Z.land c 0x3F)]
  else
    [Z.lor 0xF0 (Z.shiftr c 18);
     Z.lor 0x80 (Z.land (Z.shiftr c 12) 0x3F);
     Z.lor 0x80 (Z.land (Z.shiftr c 6) 0x3F);
     Z.lor 0x80 (Z.land c 0x3F)].

(** [s.encode("utf-8", "ignore")] *)
Definition encode_utf8_ignore (s : str) : bytes := flat_map utf8_encode_cp s.

(** [b.decode("utf-8")], strict: overlong forms, encoded surrogates, code
    points above 0x10FFFF, stray continuation bytes and truncated sequences
    raise [UnicodeDecodeError]. *)
Fixpoint decode_utf8 (bs : bytes) : pyresult str :=
  match bs with
  | [] => Ok []
  | b0 :: r0 =>
    if (0 <=? b0) && (b0 <? 0x80) then
      s <- decode_utf8 r0 ;; Ok (b0 :: s)
    else if (0xC2 <=? b0) && (b0 <=? 0xDF) then
      match r0 with
      | b1 :: r1 =>
        if is_continuation b1 then
          s <- decode_utf8 r1 ;;
          Ok (Z.lor (Z.shiftl (Z.land b0 0x1F) 6) (Z.land b1 0x3F) :: s)
        else Raise UnicodeDecodeError
      | _ => Raise UnicodeDecodeError
      end
    else if (0xE0 <=? b0) && (b0 <=? 0xEF) then
      match r0 with
      | b1 :: b2 :: r2 =>
        if is_continuation b1 && is_continuation b2 then
          let c := Z.lor (Z.shiftl (Z.land b0 0x0F) 12)
                     (Z.lor (Z.shiftl (Z.land b1 0x3F) 6) (Z.land b2 0x3F)) in
          if (c <? 0x800) || is_surrogate c then Raise UnicodeDecodeError
          else s <- decode_utf8 r2 ;; Ok (c :: s)
        else Raise UnicodeDecodeError
      | _ => Raise UnicodeDecodeError
      end
    else if (0xF0 <=? b0) && (b0 <=? 0xF4) then
      match r0 with
      | b1 :: b2 :: b3 :: r3 =>
        if is_continuation b1 && is_continuation b2 && is_continuation b3 then
          let c := Z.lor (Z.shiftl (Z.land b0 0x07) 18)
                     (Z.lor (Z.shiftl (Z.land b1 0x3F) 12)
                        (Z.lor (Z.shiftl (Z.land b2 0x3F) 6)
                           (Z.land b3 0x3F))) in
          if (c <? 0x10000) || (0x10FFFF <? c) then Raise UnicodeDecodeError
          else s <- decode_utf8 r3 ;; Ok (c :: s)
        else Raise UnicodeDecodeError
      | _ => Raise UnicodeDecodeError
      end
    else Raise UnicodeDecodeError
  end.

(** What one pass through the codec leaves of a string: the code points
    that have an encoding. *)
Definition drop_surrogates (s : str) : str :=
  filter (fun c => negb (is_surrogate c)) s.

(** [s.encode("utf-8", "ignore").decode("utf-8")] *)
Definition reencode (s : str) : pyresult str :=
  decode_utf8 (encode_utf8_ignore s).

(* ================================================================== *)
(** * json.dumps *)
(* ================================================================== *)

Definition hex_digit (n : Z) : Z :=
  if n <? 10 then 48 + n else 97 + (n - 10).

(** [format(n, "04x")] for a 16-bit [n] *)
Definition hex4 (n : Z) : str :=
  [hex_digit (Z.land (Z.shiftr n 12) 0xF);
   hex_digit (Z.land (Z.shiftr n 8) 0xF);
   hex_digit (Z.land (Z.shiftr n 4) 0xF);
   hex_digit (Z.land n 0xF)].

Definition BACKSLASH : str := [92].

(** One character of a JSON string with [ensure_ascii] on (the default):
    printable ASCII stays, backslash, quote and the usual control characters
    get their short escapes, everything else a [\uXXXX] escape, as a
    surrogate pair above the basic plane. *)
Definition json_escape_char (c : Z) : str :=
  if c =? 92 then BACKSLASH ++ BACKSLASH
  else if c =? 34 then BACKSLASH ++ DQ
  else if (0x20 <=? c) && (c <=? 0x7E) then [c]
  else if c =? 8 then BACKSLASH ++ lit "b"
  else if c =? 12 then BACKSLASH ++ lit "f"
  else if c =? 10 then BACKSLASH ++ lit "n"
  else if c =? 13 then BACKSLASH ++ lit "r"
  else if c =? 9 then BACKSLASH ++ lit "t"
  else if c <? 0x10000 then BACKSLASH ++ lit "u" ++ hex4 c
  else
    let v := c - 0x10000 in
    let s1 := Z.lor 0xD800 (Z.land (Z.shiftr v 10) 0x3FF) in
    let s2 := Z.lor 0xDC00 (Z.land v 0x3FF) in
    BACKSLASH ++ lit "u" ++ hex4 s1 ++ BACKSLASH ++ lit "u" ++ hex4 s2.

Definition json_encode_str (s : str) : str :=
  DQ ++ flat_map json_escape_char s ++ DQ.

(** [json.dumps(v)] with the default separators [", "] and [": "]. *)
Fixpoint json_dumps (v : value) : str :=
  match v with
  | VNone => lit "null"
  | VBool true => lit "true"
  | VBool false => lit "false"
  | VInt n => lit (NilZero.string_of_int (Z.to_int n))
  | VStr s => json_encode_str s
  | VList l => lit "[" ++ str_join (lit ", ") (map json_dumps l) ++ lit "]"
  | VDict d =>
    lit "{"
    ++ str_join (lit ", ")
         (map (fun kv =>
                 match kv with
                 | (k, x) => json_encode_str k ++ lit ": " ++ json_dumps x
                 end) d)
    ++ lit "}"
  end.

(* ================================================================== *)
(** * Operations on dynamically typed values *)
(* ================================================================== *)

(** [v.get(key, default)]: only a dict has the method. *)
Definition py_get (v : value) (key : str) (default : value)
  : pyresult value :=
  match v with
  | VDict d =>
    match dict_get d key with
    | Some x => Ok x
    | None => Ok default
    end
  | _ => Raise AttributeError
  end.

(** [v[key]] for a string key *)
Definition py_index (v : value) (key : str) : pyresult value :=
  match v with
  | VDict d =>
    match dict_get d key with
    | Some x => Ok x
    | None => Raise (KeyError key)
    end
  | _ => Raise TypeError
  end.

(** The elements [for item in v] runs over. *)
Definition py_iter (v : value) : pyresult (list value) :=
  match v with
  | VList l => Ok l
  | VDict d => Ok (map (fun kv => VStr (fst kv)) d)
  | VStr s => Ok (map (fun c => VStr [c]) s)
  | _ => Raise TypeError
  end.

(** [v == n] for an integer [n] ([True == 1] and [False == 0] in Python). *)
Definition py_eq_int (v : value) (n : Z) : bool :=
  match v with
  | VInt m => m =? n
  | VBool b => (if b then 1 else 0) =? n
  | _ => false
  end.

Definition py_eq_str (v : value) (s : str) : bool :=
  match v with
  | VStr t => str_eqb t s
  | _ => false
  end.

(** [needle in v] for a string [needle]: substring of a string, element of
    a list, key of a dict; other values are not containers. *)
Definition py_contains (needle : str) (v : value) : pyresult bool :=
  match v with
  | VStr hay => Ok (str_contains needle hay)
  | VList l => Ok (existsb (fun x => py_eq_str x needle) l)
  | VDict d =>
    Ok (match dict_get d needle with Some _ => true | None => false end)
  | _ => Raise TypeError
  end.

(* ================================================================== *)
(** * Configuration and command discovery *)
(* ================================================================== *)

(** [pydantic.SecretStr]: a wrapped string; its truth value is that of its
    length. *)
Inductive SecretStr : Type := Secret (v : str).

Definition get_secret_value (s : SecretStr) : str :=
  match s with Secret v => v end.

Definition secret_truthy (o : option SecretStr) : bool :=
  match o with
  | Some s => str_truthy (get_secret_value s)
  | None => false
  end.

Record WebSearchConfiguration : Type := mkConfig {
  google_api_key : option SecretStr;
  google_custom_search_engine_id : option SecretStr;
  duckduckgo_max_attempts : Z
}.

Definition default_config : WebSearchConfiguration :=
  mkConfig None None 3.

Inductive Command : Type := cmd_web_search | cmd_google.

(** The commands [get_commands] yields, in order. *)
Definition get_commands (config : WebSearchConfiguration) : list Command :=
  [cmd_web_search]
  ++ (if secret_truthy (google_api_key config)
         && secret_truthy (google_custom_search_engine_id config)
      then [cmd_google] else []).

(* ================================================================== *)
(** * safe_google_results *)
(* ================================================================== *)

Definition encode_element (result : value) : pyresult str :=
  match result with
  | VStr s => reencode s
  | _ => Raise AttributeError
  end.

Definition safe_google_results (results : value) : pyresult str :=
  match results with
  | VList l =>
    cleaned <- mapM encode_element l ;;
    Ok (json_dumps (VList (map VStr cleaned)))
  | _ => encode_element results
  end.

(* ================================================================== *)
(** * The outside world *)
(* ================================================================== *)

(** One result of the text-search provider: a [dict[str, str]]. *)
Definition ddgs_result := list (str * str).

(** What a run leaves behind: the provider calls made, with their
    arguments, and the delays slept, both in order of time. *)
Record World : Type := mkWorld {
  ddgs_calls : list (str * Z);
  sleeps : list Z
}.

Definition initial_world : World := mkWorld [] [].

Definition record_call (w : World) (query : str) (max_results : Z) : World :=
  mkWorld (ddgs_calls w ++ [(query, max_results)]) (sleeps w).

Definition time_sleep (w : World) (seconds : Z) : World :=
  mkWorld (ddgs_calls w) (sleeps w ++ [seconds]).

Definition list_truthy {A : Type} (l : list A) : bool :=
  match l with [] => false | _ :: _ => true end.

Definition value_of_result (r : ddgs_result) : value :=
  VDict (map (fun kv => (fst kv, VStr (snd kv))) r).

Definition value_of_results (rs : list ddgs_result) : value :=
  VList (map value_of_result rs).

(** [r[key]] on a [dict[str, str]] *)
Definition dict_index (r : list (str * str)) (key : str) : pyresult str :=
  match dict_get r key with
  | Some x => Ok x
  | None => Raise (KeyError key)
  end.

(** How the [while] loop of [web_search] is left. *)
Inductive loop_exit : Type :=
| Returned (s : str)
| Fell (search_results : list ddgs_result)
| Raised (e : exn)
| OutOfFuel.

Definition default_num_results : Z := 8.

Definition SEARCH_HEADER : str := lit "## Search results" ++ NL.

Definition CONFIGURATION_ERROR_MESSAGE : str :=
  lit "The provided Google API key is invalid or missing.".

Section Component.

(** [DDGS().text(query, max_results=n)]: the answer may depend on what
    happened before; the provider may raise. *)
Variable DDGS_text : World -> str -> Z -> pyresult (list ddgs_result).

(** [build("customsearch", "v1", developerKey=key).cse().list(q=q, cx=cx,
    num=num).execute()] *)
Variable cse_list_execute : str -> str -> str -> Z -> pyresult value.

(** [json.loads] *)
Variable json_loads : str -> pyresult value.

(** ** web_search *)

(** Lines 88-98.  One unit of fuel pays for one evaluation of the loop
    condition. *)
Fixpoint web_search_loop (fuel : nat) (config : WebSearchConfiguration)
    (query : str) (num_results : Z)
    (search_results : list ddgs_result) (attempts : Z) (w : World)
  : loop_exit * World :=
  match fuel with
  | O => (OutOfFuel, w)
  | S fuel' =>
    if attempts <? duckduckgo_max_attempts config then
      if negb (str_truthy query) then
        (Returned (json_dumps (value_of_results search_results)), w)
      else
        let w1 := record_call w query num_results in
        match DDGS_text w query num_results with
        | Raise e => (Raised e, w1)
        | Ok search_results' =>
          if list_truthy search_results' then (Fell search_results', w1)
          else
            let w2 := time_sleep w1 1 in
            web_search_loop fuel' config query num_results
              search_results' (attempts + 1) w2
        end
    else (Fell search_results, w)
  end.

(** Lines 100-107: the result dicts rebuilt with the keys [title], [url]
    and, when the body is not empty, [exerpt]. *)
Definition reshape_result (r : ddgs_result) : pyresult (list (str * str)) :=
  title <- dict_index r (lit "title") ;;
  url <- dict_index r (lit "href") ;;
  Ok ([(lit "title", title); (lit "url", url)]
      ++ match dict_get r (lit "body") with
         | Some body =>
           if str_truthy body then [(lit "exerpt", body)] else []
         | None => []
         end).

(** Lines 110-112: the markdown block of one result. *)
Definition render_block (r : list (str * str)) : pyresult str :=
  title <- dict_index r (lit "title") ;;
  url <- dict_index r (lit "url") ;;
  Ok (lit "### " ++ DQ ++ title ++ DQ ++ NL
      ++ lit "**URL:** " ++ url ++ lit "  " ++ NL
      ++ lit "**Excerpt:** "
      ++ match dict_get r (lit "exerpt") with
         | Some exerpt =>
           if str_truthy exerpt then DQ ++ exerpt ++ DQ else lit "N/A"
         | None => lit "N/A"
         end).

(** Lines 100-115: reshape, render, sanitize. *)
Definition render_results (search_results : list ddgs_result)
  : pyresult str :=
  reshaped <- mapM reshape_result search_results ;;
  blocks <- mapM render_block reshaped ;;
  safe_google_results
    (VStr (SEARCH_HEADER ++ str_join (NL ++ NL) blocks)).

(** The command, run with the given fuel.  [None]: the fuel did not
    suffice. *)
Definition web_search_fuel (fuel : nat) (config : WebSearchConfiguration)
    (query : str) (num_results : Z) (w : World)
  : option (pyresult str) * World :=
  match web_search_loop fuel config query num_results [] 0 w with
  | (OutOfFuel, w') => (None, w')
  | (Returned s, w') => (Some (Ok s), w')
  | (Raised e, w') => (Some (Raise e), w')
  | (Fell search_results, w') => (Some (render_results search_results), w')
  end.

(** The loop condition is evaluated at most [max_attempts + 1] times. *)
Definition web_search (config : WebSearchConfiguration)
    (query : str) (num_results : Z) (w : World)
  : option (pyresult str) * World :=
  web_search_fuel (S (Z.to_nat (duckduckgo_max_attempts config)))
    config query num_results w.

(** ** google *)

(** Lines 150-176: the body of the [try]. *)
Definition google_try (config : WebSearchConfiguration)
    (query : str) (num_results : Z) : pyresult (list value) :=
  match google_api_key config with
  | Some api_key =>
    if str_truthy (get_secret_value api_key) then
      match google_custom_search_engine_id config with
      | Some engine_id =>
        if str_truthy (get_secret_value engine_id) then
          result <- cse_list_execute (get_secret_value api_key) query
                      (get_secret_value engine_id) num_results ;;
          search_results <- py_get result (lit "items") (VList []) ;;
          items <- py_iter search_results ;;
          mapM (fun item => py_index item (lit "link")) items
        else Raise AssertionError
      | None => Raise AssertionError
      end
    else Raise AssertionError
  | None => Raise AssertionError
  end.

(** Lines 178-191: the handler of [HttpError]. *)
Definition google_except (e : HttpErrorData) : pyresult value :=
  text <- decode_utf8 (http_content e) ;;
  error_details <- json_loads text ;;
  error <- py_get error_details (lit "error") (VDict []) ;;
  code <- py_get error (lit "code") VNone ;;
  if py_eq_int code 403 then
    error' <- py_get error_details (lit "error") (VDict []) ;;
    message <- py_get error' (lit "message") (VStr []) ;;
    found <- py_contains (lit "invalid API key") message ;;
    if found then Raise (ConfigurationError CONFIGURATION_ERROR_MESSAGE)
    else Raise (HttpError e)
  else Raise (HttpError e).

Definition google (config : WebSearchConfiguration)
    (query : str) (num_results : Z) : pyresult value :=
  match google_try config query num_results with
  | Ok search_results_links =>
    safe_message <- safe_google_results (VList search_results_links) ;;
    Ok (VStr safe_message)
  | Raise (HttpError e) => google_except e
  | Raise other => Raise other
  end.

End Component.

(* ================================================================== *)
(** * Sample data *)
(* ================================================================== *)

(** A provider that never finds anything. *)
Definition provider_always_empty (w : World) (query : str) (n : Z)
  : pyresult (list ddgs_result) := Ok [].

(** The result [{title: "A", href: "u1", body: "b1"}]. *)
Definition result_A : ddgs_result :=
  [(lit "title", lit "A"); (lit "href", lit "u1"); (lit "body", lit "b1")].

Definition provider_one_hit (w : World) (query : str) (n : Z)
  : pyresult (list ddgs_result) := Ok [result_A].

Definition config_with_credentials : WebSearchConfiguration :=
  mkConfig (Some (Secret (lit "key"))) (Some (Secret (lit "cx"))) 3.

(** A response of the search API with one item. *)
Definition response_one_link : value :=
  VDict [(lit "kind", VStr (lit "customsearch#search"));
         (lit "items",
          VList [VDict [(lit "title", VStr (lit "A"));
                        (lit "link", VStr (lit "u1"))]])].

Definition api_one_link (key query cx : str) (num : Z) : pyresult value :=
  Ok response_one_link.

(** A stand-in for [json.loads] that knows the documents of a table and
    rejects every other text. *)
Definition json_loads_table (table : list (str * value)) (text : str)
  : pyresult value :=
  match dict_get table text with
  | Some v => Ok v
  | None => Raise JSONDecodeError
  end.

Definition error_payload (code : Z) (message : str) : value :=
  VDict [(lit "error",
          VDict [(lit "code", VInt code); (lit "message", VStr message)])].

Definition payload_forbidden : value :=
  error_payload 403 (lit "API key not valid: invalid API key supplied").

Definition payload_server_error : value :=
  error_payload 500 (lit "Internal error").

Definition http_error_of (status : Z) (payload : value) : HttpErrorData :=
  mkHttpError status (encode_utf8_ignore (json_dumps payload)).


Definition error_server : HttpErrorData :=
  http_error_of 500 payload_server_error.

Definition sample_json_loads : str -> pyresult value :=
  json_loads_table
    [(json_dumps payload_forbidden, payload_forbidden);
     (json_dumps payload_server_error, payload_server_error)].


Definition api_server_error (key query cx : str) (num : Z)
  : pyresult value :=
  Raise (HttpError error_server).

(** The rendering the specification's round-trip example expects. *)
Definition expected_rendering_A : str :=
  lit "## Search results" ++ NL ++ NL
  ++ lit "### " ++ DQ ++ lit "A" ++ DQ ++ NL
  ++ lit "**URL:** u1  " ++ NL
  ++ lit "**Excerpt:** " ++ DQ ++ lit "b1" ++ DQ.

(** What the code renders: one line break after the header. *)
Definition actual_rendering_A : str :=
  lit "## Search results" ++ NL
  ++ lit "### " ++ DQ ++ lit "A" ++ DQ ++ NL
  ++ lit "**URL:** u1  " ++ NL
  ++ lit "**Excerpt:** " ++ DQ ++ lit "b1" ++ DQ.

(** An item of an API response whose [link] is the string [url]. *)
Definition item_has_link (item : value) (url : str) : Prop :=
  exists d, item = VDict d /\ dict_get d (lit "link") = Some (VStr url).

Definition no_surrogate (s : str) : Prop :=
  Forall (fun c => is_surrogate c = false) s.

(* ================================================================== *)
(** * The constructor and the resources *)
(* ================================================================== *)

Definition GOOGLE_SETUP_HINT : str :=
  lit "Configure google_api_key and custom_search_engine_id "
  ++ lit "to use Google API search.".

(** Lines 36-46: the messages [__init__] logs at level [info]. *)
Definition WebSearchComponent_init (config : WebSearchConfiguration)
  : list str :=
  if negb (secret_truthy (google_api_key config))
     || negb (secret_truthy (google_custom_search_engine_id config))
  then [GOOGLE_SETUP_HINT]
  else [].

(** Lines 48-49 *)
Definition get_resources : list str :=
  [lit "Internet access for searches and information gathering."].

(* ================================================================== *)
(** * Notions for stating properties *)
(* ================================================================== *)

(** The world after [k] attempts that found nothing: [k] more calls with
    the same arguments, [k] more delays of one time unit. *)
Definition world_after (w : World) (query : str) (n : Z) (k : nat) : World :=
  mkWorld (ddgs_calls w ++ repeat (query, n) k) (sleeps w ++ repeat 1 k).

(** A field of a provider result, empty when the key is missing. *)
Definition result_field (r : ddgs_result) (key : str) : str :=
  match dict_get r key with
  | Some v => v
  | None => []
  end.

(** The markdown block of a provider result, read off its own fields. *)
Definition block_text (r : ddgs_result) : str :=
  lit "### " ++ DQ ++ result_field r (lit "title") ++ DQ ++ NL
  ++ lit "**URL:** " ++ result_field r (lit "href") ++ lit "  " ++ NL
  ++ lit "**Excerpt:** "
  ++ (if str_truthy (result_field r (lit "body"))
      then DQ ++ result_field r (lit "body") ++ DQ
      else lit "N/A").

Definition has_title_and_href (r : ddgs_result) : Prop :=
  dict_get r (lit "title") <> None /\ dict_get r (lit "href") <> None.

(** A provider result all of whose fields are well-formed strings. *)
Definition valid_result (r : ddgs_result) : Prop :=
  Forall (fun kv => valid_str (snd kv)) r.

Definition printable_ascii (s : str) : Prop :=
  Forall (fun c => 0x20 <= c <= 0x7E) s.

(** What the loop hands on after a provider answer that ends it. *)
Definition exit_of_answer (answer : pyresult (list ddgs_result))
  : loop_exit :=
  match answer with
  | Ok search_results => Fell search_results
  | Raise e => Raised e
  end.

(* ================================================================== *)
(** * More sample data *)
(* ================================================================== *)

(** A provider that finds something at the third attempt. *)
Definition provider_third_time (w : World) (query : str) (n : Z)
  : pyresult (list ddgs_result) :=
  if (List.length (ddgs_calls w) <? 2)%nat then Ok [] else Ok [result_A].

(** A provider that finds nothing once and then fails. *)
Definition provider_then_fails (w : World) (query : str) (n : Z)
  : pyresult (list ddgs_result) :=
  if (List.length (ddgs_calls w) <? 1)%nat then Ok []
  else Raise (LibraryError (lit "RatelimitException")).

(** The result [{title: "B", href: "u2"}]: no body. *)
Definition result_B : ddgs_result :=
  [(lit "title", lit "B"); (lit "href", lit "u2")].

(** A result without title. *)
Definition result_untitled : ddgs_result :=
  [(lit "href", lit "u3"); (lit "body", lit "b3")].

Definition api_without_items (key query cx : str) (num : Z)
  : pyresult value :=
  Ok (VDict [(lit "kind", VStr (lit "customsearch#search"))]).

Definition item_with_link (url : str) : value :=
  VDict [(lit "title", VStr (lit "T")); (lit "link", VStr url)].

Definition api_item_without_link (key query cx : str) (num : Z)
  : pyresult value :=
  Ok (VDict [(lit "items",
              VList [item_with_link (lit "u1");
                     VDict [(lit "title", VStr (lit "T"))];
                     item_with_link (lit "u3")])]).

Definition api_unreachable (key query cx : str) (num : Z)
  : pyresult value :=
  Raise (LibraryError (lit "TimeoutError")).

(** Error bodies off the usual shape. *)
Definition payload_forbidden_bare : value :=
  VDict [(lit "error", VDict [(lit "code", VInt 403)])].

Definition payload_forbidden_null : value :=
  VDict [(lit "error",
          VDict [(lit "code", VInt 403); (lit "message", VNone)])].

Definition error_gateway : HttpErrorData :=
  mkHttpError 502 (encode_utf8_ignore (lit "<html>Bad Gateway</html>")).

Definition api_raising (e : HttpErrorData) (key query cx : str) (num : Z)
  : pyresult value :=
  Raise (HttpError e).

Definition json_loads_of (payload : value) : str -> pyresult value :=
  json_loads_table [(json_dumps payload, payload)].

(* ================================================================== *)
(** * Properties of the codec *)
(* ================================================================== *)

Section Bits.

Lemma land_shifted_low (m k y : Z) :
  0 <= k -> 0 <= y < 2 ^ k -> Z.land (m * 2 ^ k) y = 0.
Proof.
  intros Hk Hy.
  apply Z.bits_inj'; intros n Hn.
  rewrite Z.land_spec, Z.bits_0.
  destruct (Z.lt_ge_cases n k) as [Hlt | Hge].
  - rewrite Z.mul_pow2_bits_low by lia. reflexivity.
  - destruct (Z.eq_dec y 0) as [-> | Hy0].
    + rewrite Z.bits_0. apply andb_false_r.
    + rewrite (Z.bits_above_log2 y n); [apply andb_false_r | lia |].
      apply Z.log2_lt_pow2; [lia |].
      apply Z.lt_le_trans with (2 ^ k); [lia |].
      apply Z.pow_le_mono_r; lia.
Qed.

Lemma lor_disjoint (k hi lo : Z) :
  0 <= k -> hi mod 2 ^ k = 0 -> 0 <= lo < 2 ^ k -> Z.lor hi lo = hi + lo.
Proof.
  intros Hk Hhi Hlo.
  assert (Hpos : 0 < 2 ^ k) by (apply Z.pow_pos_nonneg; lia).
  assert (E : hi = hi / 2 ^ k * 2 ^ k).
  { pose proof (Z.div_mod hi (2 ^ k)). lia. }
  pose proof (Z.add_lor_land hi lo) as H.
  rewrite E in H at 2.
  rewrite (land_shifted_low _ k lo Hk Hlo) in H. lia.
Qed.

Lemma land_low6 (x : Z) : Z.land x 0x3F = x mod 64.
Proof.
  change 0x3F with (Z.ones 6). rewrite Z.land_ones by lia. reflexivity.
Qed.

Lemma continuation_byte (x : Z) :
  Z.lor 0x80 (Z.land x 0x3F) = 128 + x mod 64.
Proof.
  rewrite land_low6.
  apply (lor_disjoint 6); [lia | reflexivity |].
  change (2 ^ 6) with 64. apply Z.mod_pos_bound. lia.
Qed.

Lemma is_continuation_byte (x : Z) :
  is_continuation (128 + x mod 64) = true.
Proof.
  unfold is_continuation.
  pose proof (Z.mod_pos_bound x 64 ltac:(lia)).
  apply andb_true_intro; split; [apply Z.leb_le | apply Z.leb_le]; lia.
Qed.

Lemma payload_of_continuation (x : Z) :
  Z.land (128 + x mod 64) 0x3F = x mod 64.
Proof.
  rewrite land_low6.
  pose proof (Z.mod_pos_bound x 64 ltac:(lia)).
  Z.div_mod_to_equations. lia.
Qed.

End Bits.

Section Decoder.

Ltac bool_lia :=
  repeat rewrite ?andb_true_iff, ?andb_false_iff, ?orb_true_iff,
    ?orb_false_iff, ?Z.ltb_lt, ?Z.ltb_ge, ?Z.leb_le, ?Z.leb_gt;
  lia.

(** One step of the decoder, the rest of the input kept abstract. *)
Ltac decode_step r0 :=
  match goal with
  | |- decode_utf8 (_ :: ?r) = _ => remember r as r0 eqn:Er0
  end;
  cbn [decode_utf8].

Lemma decode_utf8_1 (b0 : Z) (rest : bytes) :
  0 <= b0 < 0x80 ->
  decode_utf8 (b0 :: rest) = (s <- decode_utf8 rest ;; Ok (b0 :: s)).
Proof.
  intros H. decode_step r0.
  replace ((0 <=? b0) && (b0 <? 0x80)) with true by (symmetry; bool_lia).
  reflexivity.
Qed.

Lemma decode_utf8_2 (b0 b1 : Z) (rest : bytes) :
  0xC2 <= b0 <= 0xDF -> is_continuation b1 = true ->
  decode_utf8 (b0 :: b1 :: rest) =
  (s <- decode_utf8 rest ;;
   Ok (Z.lor (Z.shiftl (Z.land b0 0x1F) 6) (Z.land b1 0x3F) :: s)).
Proof.
  intros H0 H1. decode_step r0.
  replace ((0 <=? b0) && (b0 <? 0x80)) with false by (symmetry; bool_lia).
  replace ((0xC2 <=? b0) && (b0 <=? 0xDF)) with true by (symmetry; bool_lia).
  subst r0. rewrite H1. reflexivity.
Qed.

Lemma decode_utf8_3 (b0 b1 b2 : Z) (rest : bytes) :
  let c := Z.lor (Z.shiftl (Z.land b0 0x0F) 12)
             (Z.lor (Z.shiftl (Z.land b1 0x3F) 6) (Z.land b2 0x3F)) in
  0xE0 <= b0 <= 0xEF ->
  is_continuation b1 = true -> is_continuation b2 = true ->
  0x800 <= c -> is_surrogate c = false ->
  decode_utf8 (b0 :: b1 :: b2 :: rest) =
  (s <- decode_utf8 rest ;; Ok (c :: s)).
Proof.
  intros c H0 H1 H2 Hc Hs. decode_step r0.
  replace ((0 <=? b0) && (b0 <? 0x80)) with false by (symmetry; bool_lia).
  replace ((0xC2 <=? b0) && (b0 <=? 0xDF)) with false by (symmetry; bool_lia).
  replace ((0xE0 <=? b0) && (b0 <=? 0xEF)) with true by (symmetry; bool_lia).
  subst r0. rewrite H1, H2. cbn [andb]. fold c. rewrite Hs.
  replace (c <? 0x800) with false by (symmetry; bool_lia).
  reflexivity.
Qed.

Lemma decode_utf8_4 (b0 b1 b2 b3 : Z) (rest : bytes) :
  let c := Z.lor (Z.shiftl (Z.land b0 0x07) 18)
             (Z.lor (Z.shiftl (Z.land b1 0x3F) 12)
                (Z.lor (Z.shiftl (Z.land b2 0x3F) 6) (Z.land b3 0x3F))) in
  0xF0 <= b0 <= 0xF4 ->
  is_continuation b1 = true -> is_continuation b2 = true ->
  is_continuation b3 = true ->
  0x10000 <= c <= 0x10FFFF ->
  decode_utf8 (b0 :: b1 :: b2 :: b3 :: rest) =
  (s <- decode_utf8 rest ;; Ok (c :: s)).
Proof.
  intros c H0 H1 H2 H3 Hc. decode_step r0.
  replace ((0 <=? b0) && (b0 <? 0x80)) with false by (symmetry; bool_lia).
  replace ((0xC2 <=? b0) && (b0 <=? 0xDF)) with false by (symmetry; bool_lia).
  replace ((0xE0 <=? b0) && (b0 <=? 0xEF)) with false by (symmetry; bool_lia).
  replace ((0xF0 <=? b0) && (b0 <=? 0xF4)) with true by (symmetry; bool_lia).
  subst r0. rewrite H1, H2, H3. cbn [andb]. fold c.
  replace ((c <? 0x10000) || (0x10FFFF <? c)) with false
    by (symmetry; bool_lia).
  reflexivity.
Qed.

End Decoder.

Section RoundTrip.

(** Putting the payload bits of a sequence back together. *)
Lemma join_payload (k hi lo : Z) :
  0 <= k -> 0 <= lo < 2 ^ k -> Z.lor (Z.shiftl hi k) lo = hi * 2 ^ k + lo.
Proof.
  intros Hk Hlo. rewrite Z.shiftl_mul_pow2 by assumption.
  apply (lor_disjoint k); [assumption | | assumption].
  apply Z.mod_mul. apply Z.pow_nonzero; lia.
Qed.

Lemma lead_payload (k lead x : Z) :
  0 <= k -> lead mod 2 ^ k = 0 -> 0 <= x < 2 ^ k ->
  Z.land (lead + x) (Z.ones k) = x.
Proof.
  intros Hk Hl Hx. rewrite Z.land_ones by assumption.
  rewrite <- Zplus_mod_idemp_l, Hl. cbn [Z.add].
  apply Z.mod_small. assumption.
Qed.

Lemma split2 (c : Z) : c / 64 * 64 + c mod 64 = c.
Proof. pose proof (Z.div_mod c 64). lia. Qed.

Lemma split3 (c : Z) :
  c / 4096 * 4096 + ((c / 64) mod 64 * 64 + c mod 64) = c.
Proof.
  replace (c / 4096) with (c / 64 / 64)
    by (rewrite Z.div_div by lia; reflexivity).
  pose proof (Z.div_mod c 64). pose proof (Z.div_mod (c / 64) 64). lia.
Qed.

Lemma split4 (c : Z) :
  c / 262144 * 262144
  + ((c / 4096) mod 64 * 4096 + ((c / 64) mod 64 * 64 + c mod 64)) = c.
Proof.
  replace (c / 262144) with (c / 64 / 64 / 64)
    by (rewrite !Z.div_div by lia; reflexivity).
  replace (c / 4096) with (c / 64 / 64)
    by (rewrite Z.div_div by lia; reflexivity).
  pose proof (Z.div_mod c 64). pose proof (Z.div_mod (c / 64) 64).
  pose proof (Z.div_mod (c / 64 / 64) 64). lia.
Qed.

Lemma mod64_bound (x : Z) : 0 <= x mod 64 < 64.
Proof. apply Z.mod_pos_bound. lia. Qed.

Lemma low12_bound (c : Z) : 0 <= (c / 64) mod 64 * 64 + c mod 64 < 4096.
Proof. pose proof (mod64_bound c). pose proof (mod64_bound (c / 64)). lia. Qed.

Lemma low18_bound (c : Z) :
  0 <= (c / 4096) mod 64 * 4096 + ((c / 64) mod 64 * 64 + c mod 64) < 262144.
Proof.
  pose proof (low12_bound c). pose proof (mod64_bound (c / 4096)). lia.
Qed.

Lemma div_bounds (c d lo hi : Z) :
  0 < d -> lo * d <= c < hi * d -> lo <= c / d < hi.
Proof.
  intros Hd Hc. split.
  - apply Z.div_le_lower_bound; lia.
  - apply Z.div_lt_upper_bound; lia.
Qed.

Lemma decode_encode_cp (c : Z) (rest : bytes) :
  valid_codepoint c -> is_surrogate c = false ->
  decode_utf8 (utf8_encode_cp c ++ rest) =
  (s <- decode_utf8 rest ;; Ok (c :: s)).
Proof.
  unfold valid_codepoint, utf8_encode_cp. intros Hv Hs. rewrite Hs.
  destruct (Z.ltb_spec c 0x80) as [H1 | H1].
  { apply decode_utf8_1. lia. }
  destruct (Z.ltb_spec c 0x800) as [H2 | H2].
  { cbn [app]. rewrite continuation_byte, Z.shiftr_div_pow2 by lia.
    change (2 ^ 6) with 64.
    assert (Hq : 2 <= c / 64 < 32) by (apply div_bounds; lia).
    rewrite (lor_disjoint 5 0xC0 (c / 64)) by (try reflexivity; lia).
    rewrite decode_utf8_2 by (try apply is_continuation_byte; lia).
    rewrite payload_of_continuation.
    change 0x1F with (Z.ones 5).
    rewrite (lead_payload 5) by (try reflexivity; lia).
    rewrite (join_payload 6) by (try lia; apply mod64_bound).
    change (2 ^ 6) with 64. rewrite split2. reflexivity. }
  destruct (Z.ltb_spec c 0x10000) as [H3 | H3].
  { cbn [app]. rewrite !continuation_byte, !Z.shiftr_div_pow2 by lia.
    change (2 ^ 6) with 64. change (2 ^ 12) with 4096.
    assert (Hq : 0 <= c / 4096 < 16) by (apply div_bounds; lia).
    rewrite (lor_disjoint 4 0xE0 (c / 4096)) by (try reflexivity; lia).
    assert (E : Z.lor (Z.shiftl (Z.land (224 + c / 4096) 0x0F) 12)
                  (Z.lor (Z.shiftl (Z.land (128 + (c / 64) mod 64) 0x3F) 6)
                     (Z.land (128 + c mod 64) 0x3F)) = c).
    { rewrite !payload_of_continuation.
      change 0x0F with (Z.ones 4).
      rewrite (lead_payload 4) by (try reflexivity; lia).
      rewrite (join_payload 6) by (try lia; apply mod64_bound).
      change (2 ^ 6) with 64.
      rewrite (join_payload 12) by (try lia; apply low12_bound).
      change (2 ^ 12) with 4096. apply split3. }
    rewrite decode_utf8_3; rewrite ?E;
      try apply is_continuation_byte; try assumption; try lia.
    reflexivity. }
  { cbn [app]. rewrite !continuation_byte, !Z.shiftr_div_pow2 by lia.
    change (2 ^ 6) with 64. change (2 ^ 12) with 4096.
    change (2 ^ 18) with 262144.
    assert (Hq : 0 <= c / 262144 < 5) by (apply div_bounds; lia).
    rewrite (lor_disjoint 3 0xF0 (c / 262144)) by (try reflexivity; lia).
    assert (E : Z.lor (Z.shiftl (Z.land (240 + c / 262144) 0x07) 18)
                  (Z.lor (Z.shiftl (Z.land (128 + (c / 4096) mod 64) 0x3F) 12)
                     (Z.lor
                        (Z.shiftl (Z.land (128 + (c / 64) mod 64) 0x3F) 6)
                        (Z.land (128 + c mod 64) 0x3F))) = c).
    { rewrite !payload_of_continuation.
      change 0x07 with (Z.ones 3).
      rewrite (lead_payload 3) by (try reflexivity; lia).
      rewrite (join_payload 6) by (try lia; apply mod64_bound).
      change (2 ^ 6) with 64.
      rewrite (join_payload 12) by (try lia; apply low12_bound).
      change (2 ^ 12) with 4096.
      rewrite (join_payload 18) by (try lia; apply low18_bound).
      change (2 ^ 18) with 262144. apply split4. }
    rewrite decode_utf8_4; rewrite ?E;
      try apply is_continuation_byte; try lia.
    reflexivity. }
Qed.

End RoundTrip.

(* ================================================================== *)
(** * Substring search *)
(* ================================================================== *)

Section Strings.

Lemma str_startswith_spec (s prefix : str) :
  str_startswith s prefix = true <-> exists post, s = prefix ++ post.
Proof.
  revert s. induction prefix as [| p prefix IH]; intros [| c s]; cbn.
  - split; [intros _; exists []; reflexivity | reflexivity].
  - split; [intros _; exists (c :: s); reflexivity | reflexivity].
  - split; [discriminate | intros [post E]; discriminate].
  - rewrite andb_true_iff, Z.eqb_eq, IH. split.
    + intros [-> [post ->]]. exists post. reflexivity.
    + intros [post E]. injection E as -> ->. split; [reflexivity |].
      exists post. reflexivity.
Qed.

(** [str_contains] finds the needle exactly when it occurs somewhere. *)
Lemma str_contains_spec (needle hay : str) :
  str_contains needle hay = true <->
  exists pre post, hay = pre ++ needle ++ post.
Proof.
  induction hay as [| c hay IH]; cbn [str_contains];
    rewrite orb_true_iff, str_startswith_spec.
  - split.
    + intros [[post E] | H]; [| discriminate].
      exists [], post. exact E.
    + intros [pre [post E]]. left.
      destruct pre; [exists post; exact E | discriminate].
  - rewrite IH. split.
    + intros [[post E] | [pre [post E]]].
      * exists [], post. exact E.
      * exists (c :: pre), post. rewrite E. reflexivity.
    + intros [[| c' pre] [post E]].
      * left. exists post. exact E.
      * right. injection E as _ E. exists pre, post. exact E.
Qed.

End Strings.

(* ================================================================== *)
(** * The sanitizer *)
(* ================================================================== *)

Section Sanitizer.

Lemma surrogate_has_no_bytes (c : Z) :
  is_surrogate c = true -> utf8_encode_cp c = [].
Proof.
  intros Hs. unfold utf8_encode_cp. rewrite Hs.
  unfold is_surrogate in Hs. apply andb_prop in Hs as [Hlo _].
  apply Z.leb_le in Hlo.
  destruct (Z.ltb_spec c 0x80); [lia |].
  destruct (Z.ltb_spec c 0x800); [lia | reflexivity].
Qed.

(** One pass through the codec never fails and drops the surrogates. *)
Lemma reencode_drops_surrogates (s : str) :
  valid_str s -> reencode s = Ok (drop_surrogates s).
Proof.
  unfold reencode, encode_utf8_ignore.
  induction 1 as [| c s Hc Hs IH]; [reflexivity |].
  cbn [flat_map drop_surrogates filter].
  destruct (is_surrogate c) eqn:E; cbn [negb].
  - rewrite (surrogate_has_no_bytes c E). exact IH.
  - rewrite (decode_encode_cp c _ Hc E), IH. reflexivity.
Qed.

Lemma drop_surrogates_valid (s : str) :
  valid_str s -> valid_str (drop_surrogates s).
Proof.
  unfold valid_str, drop_surrogates. rewrite !Forall_forall.
  intros H c Hin. apply filter_In in Hin. apply H. tauto.
Qed.

Lemma drop_surrogates_fixed (s : str) :
  no_surrogate s -> drop_surrogates s = s.
Proof.
  induction 1 as [| c s Hc _ IH]; [reflexivity |].
  cbn [drop_surrogates filter]. rewrite Hc. cbn [negb].
  f_equal. exact IH.
Qed.

Lemma drop_surrogates_clean (s : str) : no_surrogate (drop_surrogates s).
Proof.
  unfold no_surrogate, drop_surrogates. apply Forall_forall.
  intros c Hin. apply filter_In in Hin as [_ Hc].
  destruct (is_surrogate c); [discriminate | reflexivity].
Qed.

Lemma mapM_encode_element (l : list str) :
  Forall valid_str l ->
  mapM encode_element (map VStr l) = Ok (map drop_surrogates l).
Proof.
  induction 1 as [| s l Hs _ IH]; [reflexivity |].
  cbn [map mapM encode_element].
  rewrite (reencode_drops_surrogates s Hs). cbn [bind].
  rewrite IH. reflexivity.
Qed.

Lemma valid_lit (s : string) : valid_str (lit s).
Proof.
  induction s as [| a s IH]; constructor; [| exact IH].
  unfold valid_codepoint.
  pose proof (N_ascii_bounded a) as Hb. lia.
Qed.

Lemma no_surrogate_lit (s : string) : no_surrogate (lit s).
Proof.
  induction s as [| a s IH]; constructor; [| exact IH].
  pose proof (N_ascii_bounded a) as Hb.
  unfold is_surrogate. apply andb_false_iff. left. apply Z.leb_gt. lia.
Qed.

(** C7: for every list of strings the sanitizer returns the JSON text of
    the list of the re-encoded elements (each one without the code points
    that have no encoding), as one string, for instance ["["a", "b"]"] for
    the list of ["a"] and ["b"]; a plain string that is valid in the
    encoding comes back unchanged and unwrapped, for instance ["plain"]. *)
Theorem safe_google_results_spec (l : list str) (s : str) :
  Forall valid_str l -> valid_str s -> no_surrogate s ->
  safe_google_results (VList (map VStr l))
    = Ok (json_dumps (VList (map VStr (map drop_surrogates l))))
  /\ safe_google_results (VList [VStr (lit "a"); VStr (lit "b")])
     = Ok (lit "[" ++ DQ ++ lit "a" ++ DQ ++ lit ", "
           ++ DQ ++ lit "b" ++ DQ ++ lit "]")
  /\ safe_google_results (VStr s) = Ok s
  /\ safe_google_results (VStr (lit "plain")) = Ok (lit "plain").
Proof.
  intros Hl Hs Hn. split; [| split; [| split]].
  - cbn [safe_google_results]. rewrite (mapM_encode_element l Hl).
    reflexivity.
  - vm_compute. reflexivity.
  - cbn [safe_google_results encode_element].
    rewrite (reencode_drops_surrogates s Hs), (drop_surrogates_fixed s Hn).
    reflexivity.
  - vm_compute. reflexivity.
Qed.

(** C9: the sanitizer is idempotent on strings: it returns a string, and
    sanitizing that string again returns it unchanged. *)
Theorem safe_google_results_idempotent (s : str) :
  valid_str s ->
  exists s',
    safe_google_results (VStr s) = Ok s'
    /\ safe_google_results (VStr s') = Ok s'.
Proof.
  intros Hs. exists (drop_surrogates s).
  cbn [safe_google_results encode_element]. split.
  - apply reencode_drops_surrogates, Hs.
  - rewrite reencode_drops_surrogates by (apply drop_surrogates_valid, Hs).
    rewrite drop_surrogates_fixed by apply drop_surrogates_clean.
    reflexivity.
Qed.

End Sanitizer.

(* ================================================================== *)
(** * Command discovery *)
(* ================================================================== *)

Section Discovery.

Lemma secret_truthy_spec (o : option SecretStr) :
  secret_truthy o = true <-> exists k, o = Some k /\ get_secret_value k <> [].
Proof.
  destruct o as [[v] |]; cbn.
  - destruct v; cbn; split.
    + discriminate.
    + intros [k [E Hk]]. injection E as <-. contradiction.
    + intros _. eexists. split; [reflexivity | discriminate].
    + reflexivity.
  - split; [discriminate | intros [k [E _]]; discriminate].
Qed.

(** C8: [get_commands] always yields [web_search]; it yields [google]
    exactly when the API key and the search engine id are both set and not
    empty. *)
Theorem get_commands_spec (config : WebSearchConfiguration) :
  In cmd_web_search (get_commands config)
  /\ (In cmd_google (get_commands config) <->
      (exists k, google_api_key config = Some k /\ get_secret_value k <> [])
      /\ (exists e, google_custom_search_engine_id config = Some e
                    /\ get_secret_value e <> [])).
Proof.
  unfold get_commands. split; [left; reflexivity |].
  rewrite <- !secret_truthy_spec, <- andb_true_iff.
  destruct (secret_truthy (google_api_key config)
            && secret_truthy (google_custom_search_engine_id config));
    cbn [app In]; split; intros H.
  - reflexivity.
  - right. left. reflexivity.
  - destruct H as [H | H]; [discriminate | contradiction].
  - discriminate.
Qed.

End Discovery.

(* ================================================================== *)
(** * web_search *)
(* ================================================================== *)

Section WebSearch.

Variable DDGS_text : World -> str -> Z -> pyresult (list ddgs_result).
Variable config : WebSearchConfiguration.
Variable query : str.
Variable num_results : Z.

Lemma header_is_clean :
  safe_google_results (VStr SEARCH_HEADER) = Ok SEARCH_HEADER.
Proof. vm_compute. reflexivity. Qed.

Lemma render_no_results : render_results [] = Ok SEARCH_HEADER.
Proof.
  unfold render_results. cbn [mapM bind str_join].
  rewrite app_nil_r. apply header_is_clean.
Qed.

Lemma web_search_fuel_world (fuel : nat) (w : World) :
  snd (web_search_fuel DDGS_text fuel config query num_results w)
  = snd (web_search_loop DDGS_text fuel config query num_results
         [] 0 w).
Proof.
  unfold web_search_fuel.
  destruct (web_search_loop DDGS_text fuel config query num_results [] 0 w)
    as [[s | sr | e |] w']; reflexivity.
Qed.

(** The loop ends within the fuel [web_search] gives it. *)
Lemma loop_terminates (fuel : nat) (search_results : list ddgs_result)
    (attempts : Z) (w : World) :
  (Z.to_nat (duckduckgo_max_attempts config - attempts) < fuel)%nat ->
  fst (web_search_loop DDGS_text fuel config query num_results
         search_results attempts w) <> OutOfFuel.
Proof.
  revert search_results attempts w.
  induction fuel as [| fuel IH]; intros sr a w Hfuel; [lia |].
  cbn [web_search_loop].
  destruct (Z.ltb_spec a (duckduckgo_max_attempts config)) as [Hlt | Hge];
    [| discriminate].
  destruct (str_truthy query); cbn [negb]; [| discriminate].
  destruct (DDGS_text w query num_results) as [[| r rs] | e];
    cbn [list_truthy]; try discriminate.
  apply IH. lia.
Qed.

(** Every delay is one time unit; there is at most one per attempt left. *)
Lemma loop_sleeps (fuel : nat) (search_results : list ddgs_result)
    (attempts : Z) (w : World) :
  exists new,
    sleeps (snd (web_search_loop DDGS_text fuel config query num_results
         search_results attempts w)) = sleeps w ++ new
    /\ Forall (fun d => d = 1) new
    /\ (List.length new
        <= Z.to_nat (duckduckgo_max_attempts config - attempts))%nat.
Proof.
  revert search_results attempts w.
  induction fuel as [| fuel IH]; intros sr a w; cbn [web_search_loop].
  - exists []. rewrite app_nil_r. cbn. auto with arith.
  - destruct (Z.ltb_spec a (duckduckgo_max_attempts config)) as [Hlt | Hge].
    2: { exists []. rewrite app_nil_r. cbn. auto with arith. }
    destruct (str_truthy query); cbn [negb].
    2: { exists []. rewrite app_nil_r. cbn. auto with arith. }
    destruct (DDGS_text w query num_results) as [[| r rs] | e];
      cbn [list_truthy].
    + destruct (IH [] (a + 1) (time_sleep (record_call w query num_results) 1))
        as [new [E [F L]]].
      exists (1 :: new). rewrite E. cbn [time_sleep record_call sleeps].
      rewrite <- app_assoc. split; [reflexivity |].
      split; [constructor; [reflexivity | exact F] |].
      cbn [List.length]. lia.
    + exists []. rewrite app_nil_r. cbn. auto with arith.
    + exists []. rewrite app_nil_r. cbn. auto with arith.
Qed.

(** The run in which no attempt finds anything. *)
Lemma loop_all_empty (fuel : nat) (search_results : list ddgs_result)
    (attempts : Z) (w : World) :
  str_truthy query = true ->
  (forall w0, DDGS_text w0 query num_results = Ok []) ->
  (Z.to_nat (duckduckgo_max_attempts config - attempts) < fuel)%nat ->
  web_search_loop DDGS_text fuel config query num_results
         search_results attempts w
  = (Fell (if attempts <? duckduckgo_max_attempts config
           then [] else search_results),
     mkWorld
       (ddgs_calls w
        ++ repeat (query, num_results)
             (Z.to_nat (duckduckgo_max_attempts config - attempts)))
       (sleeps w
        ++ repeat 1 (Z.to_nat (duckduckgo_max_attempts config - attempts)))).
Proof.
  intros Hq Hempty.
  revert search_results attempts w.
  induction fuel as [| fuel IH]; intros sr a w Hfuel; [lia |].
  cbn [web_search_loop].
  destruct (Z.ltb_spec a (duckduckgo_max_attempts config)) as [Hlt | Hge].
  - rewrite Hq, Hempty. cbn [negb list_truthy].
    rewrite IH by lia.
    replace (Z.to_nat (duckduckgo_max_attempts config - a))
      with (S (Z.to_nat (duckduckgo_max_attempts config - (a + 1)))) by lia.
    cbn [repeat time_sleep record_call ddgs_calls sleeps].
    rewrite <- !app_assoc. cbn [app].
    destruct (a + 1 <? duckduckgo_max_attempts config); reflexivity.
  - replace (Z.to_nat (duckduckgo_max_attempts config - a)) with 0%nat by lia.
    cbn [repeat]. rewrite !app_nil_r. destruct w; reflexivity.
Qed.

(** C5: for the empty query, with at least one attempt configured,
    [web_search] returns the string ["[]"] and leaves the world as it
    was: the provider is not called. *)
Theorem web_search_empty_query (w : World) :
  1 <= duckduckgo_max_attempts config ->
  web_search DDGS_text config [] num_results w = (Some (Ok (lit "[]")), w).
Proof.
  intros Hmax. unfold web_search, web_search_fuel.
  cbn [web_search_loop].
  destruct (Z.ltb_spec 0 (duckduckgo_max_attempts config)) as [_ | H];
    [reflexivity | lia].
Qed.

(** C10: with no attempt configured ([duckduckgo_max_attempts <= 0]) the
    loop body, and with it the test for the empty query, is never reached:
    for every query [web_search] calls nobody and returns the header line
    alone instead of ["[]"]. *)
Theorem web_search_without_attempts (w : World) :
  duckduckgo_max_attempts config <= 0 ->
  web_search DDGS_text config query num_results w
  = (Some (Ok (lit "## Search results" ++ NL)), w)
  /\ lit "## Search results" ++ NL <> lit "[]".
Proof.
  intros Hmax. split; [| discriminate].
  unfold web_search, web_search_fuel. cbn [web_search_loop].
  destruct (Z.ltb_spec 0 (duckduckgo_max_attempts config)) as [H | _];
    [lia |].
  rewrite render_no_results. reflexivity.
Qed.

(** C6: for a query that is not empty and a configuration with at least
    one attempt: when the provider finds nothing at any attempt,
    [web_search] calls it exactly [duckduckgo_max_attempts] times, raises
    nothing and returns the header line with no result block; when the
    provider finds something at the first attempt it is called exactly
    once. *)
Theorem web_search_provider_calls (w : World) :
  str_truthy query = true ->
  1 <= duckduckgo_max_attempts config ->
  ((forall w0, DDGS_text w0 query num_results = Ok []) ->
   exists calls w',
     web_search DDGS_text config query num_results w
     = (Some (Ok SEARCH_HEADER), w')
     /\ ddgs_calls w' = ddgs_calls w ++ calls
     /\ Forall (fun c => c = (query, num_results)) calls
     /\ Z.of_nat (List.length calls) = duckduckgo_max_attempts config)
  /\ (forall r rs,
        DDGS_text w query num_results = Ok (r :: rs) ->
        web_search DDGS_text config query num_results w
        = (Some (render_results (r :: rs)),
           mkWorld (ddgs_calls w ++ [(query, num_results)]) (sleeps w))).
Proof.
  intros Hq Hmax. split.
  - intros Hempty.
    pose proof (loop_all_empty
                  (S (Z.to_nat (duckduckgo_max_attempts config))) [] 0 w
                  Hq Hempty) as E.
    rewrite Z.sub_0_r in E. specialize (E ltac:(lia)).
    eexists. eexists. unfold web_search, web_search_fuel.
    rewrite E. split.
    + destruct (0 <? duckduckgo_max_attempts config);
        rewrite render_no_results; reflexivity.
    + cbn [ddgs_calls]. split; [reflexivity |]. split.
      * apply Forall_forall. intros c Hin.
        apply repeat_spec in Hin. exact Hin.
      * rewrite repeat_length. lia.
  - intros r rs Hhit. unfold web_search, web_search_fuel.
    cbn [web_search_loop].
    destruct (Z.ltb_spec 0 (duckduckgo_max_attempts config)) as [_ | H];
      [| lia].
    rewrite Hq, Hhit. reflexivity.
Qed.

(** C3, as the code has it: for a query that is not empty, a run of
    [web_search] sleeps one time unit after every attempt that found
    nothing, the last one included: at most [duckduckgo_max_attempts]
    delays in all, and exactly that many when no attempt finds anything. *)
Theorem web_search_sleeps (w : World) :
  str_truthy query = true ->
  exists delays,
    sleeps (snd (web_search DDGS_text config query num_results w))
    = sleeps w ++ delays
    /\ Forall (fun d => d = 1) delays
    /\ Z.of_nat (List.length delays) <= Z.max 0 (duckduckgo_max_attempts config)
    /\ ((forall w0, DDGS_text w0 query num_results = Ok []) ->
        Z.of_nat (List.length delays)
        = Z.max 0 (duckduckgo_max_attempts config)).
Proof.
  intros Hq. unfold web_search. rewrite web_search_fuel_world.
  destruct (loop_sleeps (S (Z.to_nat (duckduckgo_max_attempts config)))
              [] 0 w) as [delays [E [F L]]].
  exists delays. split; [exact E |]. split; [exact F |].
  split; [lia |].
  intros Hempty.
  pose proof (loop_all_empty
                (S (Z.to_nat (duckduckgo_max_attempts config))) [] 0 w
                Hq Hempty) as A.
  specialize (A ltac:(lia)).
  rewrite A in E. cbn [snd sleeps] in E.
  apply app_inv_head in E. rewrite <- E, repeat_length. lia.
Qed.

(** [web_search] always comes to an end. *)
Lemma web_search_terminates (w : World) :
  fst (web_search DDGS_text config query num_results w) <> None.
Proof.
  unfold web_search, web_search_fuel.
  pose proof (loop_terminates
                (S (Z.to_nat (duckduckgo_max_attempts config))) [] 0 w) as T.
  specialize (T ltac:(lia)).
  destruct (web_search_loop DDGS_text _ config query num_results [] 0 w)
    as [[s | sr | e |] w']; cbn in *; congruence.
Qed.

End WebSearch.

(* ================================================================== *)
(** * Rendering *)
(* ================================================================== *)

Section Rendering.

(** C2, as the code has it: the result list
    [[{title: "A", href: "u1", body: "b1"}]] is rendered with one line
    break, not two, between the header line and the first block. *)
Theorem render_results_example :
  render_results [result_A]
  = Ok (lit "## Search results" ++ NL
        ++ lit "### " ++ DQ ++ lit "A" ++ DQ ++ NL
        ++ lit "**URL:** u1  " ++ NL
        ++ lit "**Excerpt:** " ++ DQ ++ lit "b1" ++ DQ).
Proof. vm_compute. reflexivity. Qed.

(** The rendering the specification gives for that list is not what the
    code produces. *)
Lemma render_results_example_differs :
  render_results [result_A]
  <> Ok (lit "## Search results" ++ NL ++ NL
         ++ lit "### " ++ DQ ++ lit "A" ++ DQ ++ NL
         ++ lit "**URL:** u1  " ++ NL
         ++ lit "**Excerpt:** " ++ DQ ++ lit "b1" ++ DQ).
Proof. vm_compute. discriminate. Qed.

(** The same through the whole command. *)
Example web_search_one_hit :
  web_search provider_one_hit default_config (lit "A") default_num_results
    initial_world
  = (Some (Ok actual_rendering_A),
     mkWorld [(lit "A", default_num_results)] []).
Proof. vm_compute. reflexivity. Qed.

(** A result without body text gets the excerpt line [N/A]. *)
Example render_results_without_body :
  render_results [[(lit "title", lit "A"); (lit "href", lit "u1")]]
  = Ok (lit "## Search results" ++ NL
        ++ lit "### " ++ DQ ++ lit "A" ++ DQ ++ NL
        ++ lit "**URL:** u1  " ++ NL
        ++ lit "**Excerpt:** N/A").
Proof. vm_compute. reflexivity. Qed.

End Rendering.

(* ================================================================== *)
(** * google *)
(* ================================================================== *)

Section Google.

Variable cse_list_execute : str -> str -> str -> Z -> pyresult value.
Variable json_loads : str -> pyresult value.
Variable config : WebSearchConfiguration.
Variable query : str.
Variable num_results : Z.

Variables api_key engine_id : SecretStr.
Hypothesis Hkey : google_api_key config = Some api_key.
Hypothesis Hkey_set : str_truthy (get_secret_value api_key) = true.
Hypothesis Hengine : google_custom_search_engine_id config = Some engine_id.
Hypothesis Hengine_set : str_truthy (get_secret_value engine_id) = true.

Lemma mapM_links (items : list value) (urls : list str) :
  Forall2 item_has_link items urls ->
  mapM (fun item => py_index item (lit "link")) items = Ok (map VStr urls).
Proof.
  induction 1 as [| item url items urls [d [-> Hd]] _ IH]; [reflexivity |].
  cbn [mapM map py_index]. rewrite Hd. cbn [bind]. rewrite IH. reflexivity.
Qed.

Lemma google_try_call :
  google_try cse_list_execute config query num_results
  = (result <- cse_list_execute (get_secret_value api_key) query
                 (get_secret_value engine_id) num_results ;;
     search_results <- py_get result (lit "items") (VList []) ;;
     items <- py_iter search_results ;;
     mapM (fun item => py_index item (lit "link")) items).
Proof.
  unfold google_try. rewrite Hkey, Hkey_set, Hengine, Hengine_set.
  reflexivity.
Qed.

(** C1, as the code has it: when the call of the search API succeeds,
    [google] returns one string, the JSON text of the list of the
    re-encoded result links, not a list. *)
Theorem google_returns_json_text
    (result : value) (items : list value) (urls : list str) :
  cse_list_execute (get_secret_value api_key) query
    (get_secret_value engine_id) num_results = Ok result ->
  py_get result (lit "items") (VList []) = Ok (VList items) ->
  Forall2 item_has_link items urls ->
  Forall valid_str urls ->
  google cse_list_execute json_loads config query num_results
  = Ok (VStr (json_dumps (VList (map VStr (map drop_surrogates urls))))).
Proof.
  intros Hcall Hitems Hlinks Hvalid.
  unfold google. rewrite google_try_call, Hcall. cbn [bind].
  rewrite Hitems. cbn [bind py_iter].
  rewrite (mapM_links items urls Hlinks).
  cbn [safe_google_results].
  rewrite (mapM_encode_element urls Hvalid). reflexivity.
Qed.


(** An error body [json.loads] rejects: the decoder's exception leaves
    the handler, the [HttpError] is not raised again.  The theorem above
    is about error bodies that are structured errors. *)
Lemma google_unparsable_error_body
    (e : HttpErrorData) (text : str) (x : exn) :
  cse_list_execute (get_secret_value api_key) query
    (get_secret_value engine_id) num_results = Raise (HttpError e) ->
  decode_utf8 (http_content e) = Ok text ->
  json_loads text = Raise x ->
  google cse_list_execute json_loads config query num_results = Raise x.
Proof.
  intros Hcall Htext Hloads.
  unfold google. rewrite google_try_call, Hcall. cbn [bind].
  unfold google_except. rewrite Htext. cbn [bind].
  rewrite Hloads. reflexivity.
Qed.

End Google.

(* ================================================================== *)
(** * The theorems at sample inputs *)
(* ================================================================== *)

(** A string with a lone surrogate in the middle. *)
Lemma valid_with_surrogate : valid_str [0x41; 0xD800; 0x42].
Proof.
  repeat (constructor; [unfold valid_codepoint; lia |]). constructor.
Qed.

Lemma safe_google_results_spec_witness :
  Forall valid_str [[0x41; 0xD800; 0x42]; lit "b"]
  /\ valid_str (lit "plain")
  /\ no_surrogate (lit "plain")
  /\ safe_google_results (VList (map VStr [[0x41; 0xD800; 0x42]; lit "b"]))
     = Ok (json_dumps
             (VList (map VStr
                       (map drop_surrogates [[0x41; 0xD800; 0x42]; lit "b"]))))
  /\ safe_google_results (VStr (lit "plain")) = Ok (lit "plain").
Proof.
  assert (Hl : Forall valid_str [[0x41; 0xD800; 0x42]; lit "b"]).
  { constructor; [exact valid_with_surrogate |].
    constructor; [apply valid_lit | constructor]. }
  split; [exact Hl |].
  split; [apply valid_lit |].
  split; [apply no_surrogate_lit |].
  destruct (safe_google_results_spec
              [[0x41; 0xD800; 0x42]; lit "b"] (lit "plain")
              Hl (valid_lit "plain") (no_surrogate_lit "plain"))
    as [H1 [_ [H3 _]]].
  split; [exact H1 | exact H3].
Defined.

Lemma safe_google_results_idempotent_witness :
  valid_str [0x41; 0xD800; 0x42]
  /\ exists s',
       safe_google_results (VStr [0x41; 0xD800; 0x42]) = Ok s'
       /\ safe_google_results (VStr s') = Ok s'.
Proof.
  split; [exact valid_with_surrogate |].
  exact (safe_google_results_idempotent [0x41; 0xD800; 0x42]
           valid_with_surrogate).
Defined.

Lemma web_search_empty_query_witness :
  1 <= duckduckgo_max_attempts default_config
  /\ web_search provider_one_hit default_config [] default_num_results
       initial_world
     = (Some (Ok (lit "[]")), initial_world).
Proof.
  assert (H : 1 <= duckduckgo_max_attempts default_config)
    by (cbn; lia).
  split; [exact H |].
  exact (web_search_empty_query provider_one_hit default_config
           default_num_results initial_world H).
Defined.

Lemma web_search_without_attempts_witness :
  duckduckgo_max_attempts (mkConfig None None 0) <= 0
  /\ web_search provider_one_hit (mkConfig None None 0) []
       default_num_results initial_world
     = (Some (Ok (lit "## Search results" ++ NL)), initial_world).
Proof.
  assert (H : duckduckgo_max_attempts (mkConfig None None 0) <= 0)
    by (cbn; lia).
  split; [exact H |].
  exact (proj1 (web_search_without_attempts provider_one_hit
                  (mkConfig None None 0) [] default_num_results
                  initial_world H)).
Defined.

Lemma web_search_provider_calls_witness :
  str_truthy (lit "x") = true
  /\ 1 <= duckduckgo_max_attempts default_config
  /\ (forall w0,
        provider_always_empty w0 (lit "x") default_num_results = Ok [])
  /\ exists calls w',
       web_search provider_always_empty default_config (lit "x")
         default_num_results initial_world
       = (Some (Ok SEARCH_HEADER), w')
       /\ ddgs_calls w' = ddgs_calls initial_world ++ calls
       /\ Forall (fun c => c = (lit "x", default_num_results)) calls
       /\ Z.of_nat (List.length calls)
          = duckduckgo_max_attempts default_config.
Proof.
  assert (Hq : str_truthy (lit "x") = true) by reflexivity.
  assert (Hmax : 1 <= duckduckgo_max_attempts default_config)
    by (cbn; lia).
  assert (Hempty : forall w0,
             provider_always_empty w0 (lit "x") default_num_results = Ok [])
    by (intros w0; reflexivity).
  split; [exact Hq |]. split; [exact Hmax |]. split; [exact Hempty |].
  exact (proj1 (web_search_provider_calls provider_always_empty
                  default_config (lit "x") default_num_results
                  initial_world Hq Hmax) Hempty).
Defined.

Lemma web_search_sleeps_witness :
  str_truthy (lit "x") = true
  /\ exists delays,
       sleeps (snd (web_search provider_always_empty default_config
                      (lit "x") default_num_results initial_world))
       = sleeps initial_world ++ delays
       /\ Forall (fun d => d = 1) delays
       /\ Z.of_nat (List.length delays)
          <= Z.max 0 (duckduckgo_max_attempts default_config)
       /\ ((forall w0,
              provider_always_empty w0 (lit "x") default_num_results
              = Ok []) ->
           Z.of_nat (List.length delays)
           = Z.max 0 (duckduckgo_max_attempts default_config)).
Proof.
  assert (Hq : str_truthy (lit "x") = true) by reflexivity.
  split; [exact Hq |].
  exact (web_search_sleeps provider_always_empty default_config (lit "x")
           default_num_results initial_world Hq).
Defined.

(** With the default of three attempts and a provider that never finds
    anything the run sleeps three times, not two. *)
Lemma web_search_sleeps_after_last_attempt :
  sleeps (snd (web_search provider_always_empty default_config (lit "x")
                 default_num_results initial_world))
  = [1; 1; 1]
  /\ ~ (Z.of_nat
          (List.length
             (sleeps (snd (web_search provider_always_empty default_config
                             (lit "x") default_num_results initial_world))))
        <= duckduckgo_max_attempts default_config - 1).
Proof.
  split; [vm_compute; reflexivity |].
  vm_compute. intros H. apply H. reflexivity.
Qed.

(** For a response with one item [google] returns the string
    ["["u1"]"]: a string, not a list. *)
Lemma google_result_is_not_a_list :
  api_one_link (lit "key") (lit "q") (lit "cx") default_num_results
  = Ok response_one_link
  /\ google api_one_link sample_json_loads config_with_credentials
       (lit "q") default_num_results
     = Ok (VStr (lit "[" ++ DQ ++ lit "u1" ++ DQ ++ lit "]"))
  /\ forall urls,
       google api_one_link sample_json_loads config_with_credentials
         (lit "q") default_num_results
       <> Ok (VList urls).
Proof.
  split; [reflexivity |].
  split; [vm_compute; reflexivity |].
  intros urls. vm_compute. discriminate.
Qed.

Lemma google_returns_json_text_witness :
  google_api_key config_with_credentials = Some (Secret (lit "key"))
  /\ str_truthy (get_secret_value (Secret (lit "key"))) = true
  /\ google_custom_search_engine_id config_with_credentials
     = Some (Secret (lit "cx"))
  /\ str_truthy (get_secret_value (Secret (lit "cx"))) = true
  /\ api_one_link (lit "key") (lit "q") (lit "cx") default_num_results
     = Ok response_one_link
  /\ google api_one_link sample_json_loads config_with_credentials
       (lit "q") default_num_results
     = Ok (VStr (json_dumps
                   (VList (map VStr (map drop_surrogates [lit "u1"]))))).
Proof.
  repeat (split; [reflexivity |]).
  refine (google_returns_json_text api_one_link sample_json_loads
            config_with_credentials (lit "q") default_num_results
            (Secret (lit "key")) (Secret (lit "cx"))
            eq_refl eq_refl eq_refl eq_refl
            response_one_link
            [VDict [(lit "title", VStr (lit "A"));
                    (lit "link", VStr (lit "u1"))]]
            [lit "u1"] eq_refl eq_refl _ _).
  - constructor; [| constructor].
    eexists. split; reflexivity.
  - constructor; [apply valid_lit | constructor].
Defined.


(** A 500 response comes back as the error the API client raised. *)
Example google_server_error :
  google api_server_error sample_json_loads config_with_credentials
    (lit "q") default_num_results
  = Raise (HttpError error_server).
Proof. vm_compute. reflexivity. Qed.

(** A 403 response whose message does not speak of the key, too. *)
Example google_forbidden_other_reason :
  google
    (fun _ _ _ _ =>
       Raise (HttpError
                (http_error_of 403 (error_payload 403 (lit "Quota exceeded")))))
    (json_loads_table
       [(json_dumps (error_payload 403 (lit "Quota exceeded")),
         error_payload 403 (lit "Quota exceeded"))])
    config_with_credentials (lit "q") default_num_results
  = Raise (HttpError
             (http_error_of 403 (error_payload 403 (lit "Quota exceeded")))).
Proof. vm_compute. reflexivity. Qed.

(* ================================================================== *)
(** * The decoder is strict *)
(* ================================================================== *)

Section Strictness.

Ltac bool_hyps :=
  repeat match goal with
    | H : _ && _ = true |- _ => apply andb_prop in H; destruct H
    | H : _ || _ = false |- _ => apply orb_false_elim in H; destruct H
    | H : (_ <=? _) = true |- _ => apply Z.leb_le in H
    | H : (_ <=? _) = false |- _ => apply Z.leb_gt in H
    | H : (_ <? _) = true |- _ => apply Z.ltb_lt in H
    | H : (_ <? _) = false |- _ => apply Z.ltb_ge in H
    end.

Lemma continuation_range (b : Z) :
  is_continuation b = true -> 0x80 <= b <= 0xBF.
Proof. unfold is_continuation. intros H. bool_hyps. lia. Qed.

(** The payload bits of a byte whose high bits are [lead]. *)
Lemma payload_of (k lead b : Z) :
  0 <= k -> lead mod 2 ^ k = 0 -> lead <= b < lead + 2 ^ k ->
  Z.land b (Z.ones k) = b - lead.
Proof.
  intros Hk Hl Hb. replace b with (lead + (b - lead)) at 1 by lia.
  apply lead_payload; [assumption | assumption | lia].
Qed.

Lemma codepoint2 (b0 b1 : Z) :
  0xC2 <= b0 <= 0xDF -> 0x80 <= b1 <= 0xBF ->
  Z.lor (Z.shiftl (Z.land b0 0x1F) 6) (Z.land b1 0x3F)
  = (b0 - 192) * 64 + (b1 - 128).
Proof.
  intros H0 H1.
  change 0x1F with (Z.ones 5). change 0x3F with (Z.ones 6).
  rewrite (payload_of 5 192), (payload_of 6 128)
    by (try reflexivity; cbn; lia).
  rewrite (join_payload 6) by (cbn; lia). reflexivity.
Qed.

Lemma codepoint3 (b0 b1 b2 : Z) :
  0xE0 <= b0 <= 0xEF -> 0x80 <= b1 <= 0xBF -> 0x80 <= b2 <= 0xBF ->
  Z.lor (Z.shiftl (Z.land b0 0x0F) 12)
    (Z.lor (Z.shiftl (Z.land b1 0x3F) 6) (Z.land b2 0x3F))
  = (b0 - 224) * 4096 + ((b1 - 128) * 64 + (b2 - 128)).
Proof.
  intros H0 H1 H2.
  change 0x0F with (Z.ones 4). change 0x3F with (Z.ones 6).
  rewrite (payload_of 4 224), (payload_of 6 128 b1), (payload_of 6 128 b2)
    by (try reflexivity; cbn; lia).
  rewrite (join_payload 6) by (cbn; lia).
  rewrite (join_payload 12) by (cbn; lia). reflexivity.
Qed.

Lemma codepoint4 (b0 b1 b2 b3 : Z) :
  0xF0 <= b0 <= 0xF4 -> 0x80 <= b1 <= 0xBF -> 0x80 <= b2 <= 0xBF ->
  0x80 <= b3 <= 0xBF ->
  Z.lor (Z.shiftl (Z.land b0 0x07) 18)
    (Z.lor (Z.shiftl (Z.land b1 0x3F) 12)
       (Z.lor (Z.shiftl (Z.land b2 0x3F) 6) (Z.land b3 0x3F)))
  = (b0 - 240) * 262144
    + ((b1 - 128) * 4096 + ((b2 - 128) * 64 + (b3 - 128))).
Proof.
  intros H0 H1 H2 H3.
  change 0x07 with (Z.ones 3). change 0x3F with (Z.ones 6).
  rewrite (payload_of 3 240), (payload_of 6 128 b1), (payload_of 6 128 b2),
    (payload_of 6 128 b3) by (try reflexivity; cbn; lia).
  rewrite (join_payload 6) by (cbn; lia).
  rewrite (join_payload 12) by (cbn; lia).
  rewrite (join_payload 18) by (cbn; lia). reflexivity.
Qed.


Lemma lead_byte (k lead x : Z) :
  0 <= k -> lead mod 2 ^ k = 0 -> 0 <= x < 2 ^ k ->
  Z.lor lead x = lead + x.
Proof. intros. apply (lor_disjoint k); assumption. Qed.

Lemma continuation_of (x : Z) :
  0 <= x < 64 -> Z.lor 0x80 (Z.land x 0x3F) = 128 + x.
Proof.
  intros Hx. rewrite continuation_byte, Z.mod_small by assumption.
  reflexivity.
Qed.

Lemma encode_payload2 (x0 x1 : Z) :
  2 <= x0 < 32 -> 0 <= x1 < 64 ->
  utf8_encode_cp (x0 * 64 + x1) = [192 + x0; 128 + x1].
Proof.
  intros H0 H1. unfold utf8_encode_cp.
  destruct (Z.ltb_spec (x0 * 64 + x1) 0x80); [lia |].
  destruct (Z.ltb_spec (x0 * 64 + x1) 0x800); [| lia].
  rewrite Z.shiftr_div_pow2 by lia. change (2 ^ 6) with 64.
  replace ((x0 * 64 + x1) / 64) with x0
    by (apply Z.div_unique with (r := x1); lia).
  rewrite continuation_byte.
  replace ((x0 * 64 + x1) mod 64) with x1
    by (apply Z.mod_unique with (q := x0); lia).
  rewrite (lead_byte 5) by (try reflexivity; cbn; lia).
  reflexivity.
Qed.

Lemma encode_payload3 (x0 x1 x2 : Z) :
  let c := x0 * 4096 + (x1 * 64 + x2) in
  0 <= x0 < 16 -> 0 <= x1 < 64 -> 0 <= x2 < 64 ->
  0x800 <= c -> is_surrogate c = false ->
  utf8_encode_cp c = [224 + x0; 128 + x1; 128 + x2].
Proof.
  intros c H0 H1 H2 Hc Hs. unfold utf8_encode_cp. rewrite Hs.
  destruct (Z.ltb_spec c 0x80); [lia |].
  destruct (Z.ltb_spec c 0x800); [lia |].
  destruct (Z.ltb_spec c 0x10000); [| subst c; lia].
  rewrite !Z.shiftr_div_pow2 by lia.
  change (2 ^ 6) with 64. change (2 ^ 12) with 4096.
  replace (c / 4096) with x0
    by (apply Z.div_unique with (r := x1 * 64 + x2); subst c; lia).
  replace (c / 64) with (x0 * 64 + x1)
    by (apply Z.div_unique with (r := x2); subst c; lia).
  rewrite !continuation_byte.
  replace ((x0 * 64 + x1) mod 64) with x1
    by (apply Z.mod_unique with (q := x0); lia).
  replace (c mod 64) with x2
    by (apply Z.mod_unique with (q := x0 * 64 + x1); subst c; lia).
  rewrite (lead_byte 4) by (try reflexivity; cbn; lia).
  reflexivity.
Qed.

Lemma encode_payload4 (x0 x1 x2 x3 : Z) :
  let c := x0 * 262144 + (x1 * 4096 + (x2 * 64 + x3)) in
  0 <= x0 < 8 -> 0 <= x1 < 64 -> 0 <= x2 < 64 -> 0 <= x3 < 64 ->
  0x10000 <= c ->
  utf8_encode_cp c = [240 + x0; 128 + x1; 128 + x2; 128 + x3].
Proof.
  intros c H0 H1 H2 H3 Hc. unfold utf8_encode_cp.
  destruct (Z.ltb_spec c 0x80); [lia |].
  destruct (Z.ltb_spec c 0x800); [lia |].
  replace (is_surrogate c) with false
    by (symmetry; unfold is_surrogate; apply andb_false_iff; right;
        apply Z.leb_gt; lia).
  destruct (Z.ltb_spec c 0x10000); [lia |].
  rewrite !Z.shiftr_div_pow2 by lia.
  change (2 ^ 6) with 64. change (2 ^ 12) with 4096.
  change (2 ^ 18) with 262144.
  replace (c / 262144) with x0
    by (apply Z.div_unique with (r := x1 * 4096 + (x2 * 64 + x3));
        subst c; lia).
  replace (c / 4096) with (x0 * 64 + x1)
    by (apply Z.div_unique with (r := x2 * 64 + x3); subst c; lia).
  replace (c / 64) with ((x0 * 64 + x1) * 64 + x2)
    by (apply Z.div_unique with (r := x3); subst c; lia).
  rewrite !continuation_byte.
  replace ((x0 * 64 + x1) mod 64) with x1
    by (apply Z.mod_unique with (q := x0); lia).
  replace (((x0 * 64 + x1) * 64 + x2) mod 64) with x2
    by (apply Z.mod_unique with (q := x0 * 64 + x1); lia).
  replace (c mod 64) with x3
    by (apply Z.mod_unique with (q := (x0 * 64 + x1) * 64 + x2);
        subst c; lia).
  rewrite (lead_byte 3) by (try reflexivity; cbn; lia).
  reflexivity.
Qed.


(** What a successful decoding says about the first bytes. *)
Lemma decode_utf8_inv (b0 : Z) (r0 : bytes) (s : str) :
  decode_utf8 (b0 :: r0) = Ok s ->
  (0 <= b0 < 0x80 /\ exists s', decode_utf8 r0 = Ok s' /\ s = b0 :: s')
  \/ (0xC2 <= b0 <= 0xDF /\
      exists b1 r1 s',
        r0 = b1 :: r1 /\ 0x80 <= b1 <= 0xBF
        /\ decode_utf8 r1 = Ok s'
        /\ s = (b0 - 192) * 64 + (b1 - 128) :: s')
  \/ (0xE0 <= b0 <= 0xEF /\
      exists b1 b2 r2 s',
        r0 = b1 :: b2 :: r2 /\ 0x80 <= b1 <= 0xBF /\ 0x80 <= b2 <= 0xBF
        /\ decode_utf8 r2 = Ok s'
        /\ 0x800 <= (b0 - 224) * 4096 + ((b1 - 128) * 64 + (b2 - 128))
        /\ is_surrogate
             ((b0 - 224) * 4096 + ((b1 - 128) * 64 + (b2 - 128))) = false
        /\ s = (b0 - 224) * 4096 + ((b1 - 128) * 64 + (b2 - 128)) :: s')
  \/ (0xF0 <= b0 <= 0xF4 /\
      exists b1 b2 b3 r3 s',
        r0 = b1 :: b2 :: b3 :: r3
        /\ 0x80 <= b1 <= 0xBF /\ 0x80 <= b2 <= 0xBF /\ 0x80 <= b3 <= 0xBF
        /\ decode_utf8 r3 = Ok s'
        /\ 0x10000
           <= (b0 - 240) * 262144
              + ((b1 - 128) * 4096 + ((b2 - 128) * 64 + (b3 - 128)))
           <= 0x10FFFF
        /\ s = (b0 - 240) * 262144
               + ((b1 - 128) * 4096 + ((b2 - 128) * 64 + (b3 - 128)))
               :: s').
Proof.
  remember r0 as r eqn:Er. cbn [decode_utf8]. subst r.
  destruct ((0 <=? b0) && (b0 <? 0x80)) eqn:C1.
  { intros H. left. bool_hyps. split; [lia |].
    destruct (decode_utf8 r0) as [s' | e]; [| discriminate].
    injection H as <-. exists s'. split; reflexivity. }
  destruct ((0xC2 <=? b0) && (b0 <=? 0xDF)) eqn:C2.
  { intros H. right. left. bool_hyps. split; [lia |].
    destruct r0 as [| b1 r1]; [discriminate |].
    destruct (is_continuation b1) eqn:K1; [| discriminate].
    apply continuation_range in K1.
    rewrite codepoint2 in H by lia.
    destruct (decode_utf8 r1) as [s' | e] eqn:D; [| discriminate].
    injection H as <-. exists b1, r1, s'.
    repeat (split; [first [reflexivity | assumption | lia] |]).
    reflexivity. }
  destruct ((0xE0 <=? b0) && (b0 <=? 0xEF)) eqn:C3.
  { intros H. right. right. left. bool_hyps. split; [lia |].
    destruct r0 as [| b1 [| b2 r2]]; try discriminate.
    destruct (is_continuation b1) eqn:K1; [| discriminate].
    destruct (is_continuation b2) eqn:K2; [| discriminate].
    apply continuation_range in K1, K2. cbn [andb] in H.
    rewrite codepoint3 in H by lia.
    destruct (_ || _) eqn:R in H; [discriminate |].
    destruct (decode_utf8 r2) as [s' | e] eqn:D; [| discriminate].
    injection H as <-. exists b1, b2, r2, s'. bool_hyps.
    repeat (split; [first [reflexivity | assumption | lia] |]).
    reflexivity. }
  destruct ((0xF0 <=? b0) && (b0 <=? 0xF4)) eqn:C4; [| discriminate].
  intros H. right. right. right. bool_hyps. split; [lia |].
  destruct r0 as [| b1 [| b2 [| b3 r3]]]; try discriminate.
  destruct (is_continuation b1) eqn:K1; [| discriminate].
  destruct (is_continuation b2) eqn:K2; [| discriminate].
  destruct (is_continuation b3) eqn:K3; [| discriminate].
  apply continuation_range in K1, K2, K3. cbn [andb] in H.
  rewrite codepoint4 in H by lia.
  destruct (_ || _) eqn:R in H; [discriminate |].
  destruct (decode_utf8 r3) as [s' | e] eqn:D; [| discriminate].
  injection H as <-. exists b1, b2, b3, r3, s'. bool_hyps.
  repeat (split; [first [reflexivity | assumption | lia] |]).
  reflexivity.
Qed.


Lemma decode_utf8_strict_upto (n : nat) (bs : bytes) (s : str) :
  (List.length bs <= n)%nat ->
  decode_utf8 bs = Ok s ->
  encode_utf8_ignore s = bs /\ valid_str s /\ no_surrogate s.
Proof.
  revert bs s. induction n as [| n IH]; intros bs s Hn H.
  { destruct bs; [| cbn in Hn; lia].
    injection H as <-. repeat split; constructor. }
  destruct bs as [| b0 r0].
  { injection H as <-. repeat split; constructor. }
  cbn [List.length] in Hn.
  apply decode_utf8_inv in H as [H | [H | [H | H]]].
  - destruct H as [H0 [s' [D ->]]].
    apply IH in D as [E [V S]]; [| lia].
    split; [| split].
    + cbn [encode_utf8_ignore flat_map]. fold (encode_utf8_ignore s').
      rewrite E. unfold utf8_encode_cp.
      destruct (Z.ltb_spec b0 0x80); [reflexivity | lia].
    + constructor; [unfold valid_codepoint; lia | exact V].
    + constructor; [| exact S].
      unfold is_surrogate. apply andb_false_iff. left. apply Z.leb_gt. lia.
  - destruct H as [H0 [b1 [r1 [s' [-> [H1 [D ->]]]]]]].
    cbn [List.length] in Hn. apply IH in D as [E [V S]]; [| lia].
    split; [| split].
    + cbn [encode_utf8_ignore flat_map]. fold (encode_utf8_ignore s').
      rewrite E, encode_payload2 by lia. cbn [app].
      f_equal; [lia | f_equal; lia].
    + constructor; [unfold valid_codepoint; lia | exact V].
    + constructor; [| exact S].
      unfold is_surrogate. apply andb_false_iff. left. apply Z.leb_gt. lia.
  - destruct H
      as [H0 [b1 [b2 [r2 [s' [-> [H1 [H2 [D [Hc [Hs ->]]]]]]]]]]].
    cbn [List.length] in Hn. apply IH in D as [E [V S]]; [| lia].
    split; [| split].
    + cbn [encode_utf8_ignore flat_map]. fold (encode_utf8_ignore s').
      rewrite E, encode_payload3 by (try assumption; lia). cbn [app].
      f_equal; [lia | f_equal; [lia | f_equal; lia]].
    + constructor; [unfold valid_codepoint; lia | exact V].
    + constructor; [exact Hs | exact S].
  - destruct H
      as [H0 [b1 [b2 [b3 [r3 [s' [-> [H1 [H2 [H3 [D [Hc ->]]]]]]]]]]]].
    cbn [List.length] in Hn. apply IH in D as [E [V S]]; [| lia].
    split; [| split].
    + cbn [encode_utf8_ignore flat_map]. fold (encode_utf8_ignore s').
      rewrite E, encode_payload4 by lia. cbn [app].
      f_equal; [lia | f_equal; [lia | f_equal; [lia | f_equal; lia]]].
    + constructor; [unfold valid_codepoint; lia | exact V].
    + constructor; [| exact S].
      unfold is_surrogate. apply andb_false_iff. right. apply Z.leb_gt. lia.
Qed.

(** The decoder is strict: what it accepts is the encoding of the string
    it returns, and that string holds code points only, none of them a
    surrogate. *)
Theorem decode_utf8_strict (bs : bytes) (s : str) :
  decode_utf8 bs = Ok s ->
  encode_utf8_ignore s = bs /\ valid_str s /\ no_surrogate s.
Proof. apply (decode_utf8_strict_upto (List.length bs)). lia. Qed.

End Strictness.

(* ================================================================== *)
(** * More on the sanitizer *)
(* ================================================================== *)

Section SanitizerOutput.

Lemma reencode_clean (s out : str) :
  reencode s = Ok out -> valid_str out /\ no_surrogate out.
Proof.
  unfold reencode. intros H.
  apply (decode_utf8_strict_upto
           (List.length (encode_utf8_ignore s))) in H; [tauto | lia].
Qed.

(** Whatever the input, a string the sanitizer returns holds code points
    only and no surrogate. *)
Theorem safe_google_results_str_clean (s out : str) :
  safe_google_results (VStr s) = Ok out ->
  valid_str out /\ no_surrogate out.
Proof.
  cbn [safe_google_results encode_element]. intros H.
  destruct (reencode_clean s out H) as [Hv Hn].
  split; [exact Hv | exact Hn].
Qed.

(** The sanitizer leaves a string as it is exactly when the string has
    no surrogate. *)
Theorem safe_google_results_fixed_iff (s : str) :
  valid_str s ->
  (safe_google_results (VStr s) = Ok s <-> no_surrogate s).
Proof.
  intros Hv. split.
  - cbn [safe_google_results encode_element]. intros H.
    apply reencode_clean in H. tauto.
  - intros Hn. cbn [safe_google_results encode_element].
    rewrite reencode_drops_surrogates, drop_surrogates_fixed by assumption.
    reflexivity.
Qed.

(** Values that are neither a string nor a list have no [encode]. *)
Theorem safe_google_results_rejects_other_values (v : value) :
  (forall s, v <> VStr s) -> (forall l, v <> VList l) ->
  safe_google_results v = Raise AttributeError.
Proof.
  intros Hs Hl. destruct v as [| b | n | s | l | d]; try reflexivity.
  - contradiction (Hs s). reflexivity.
  - contradiction (Hl l). reflexivity.
Qed.

(** A list is refused at its first element that is not a string. *)
Theorem safe_google_results_rejects_mixed_list
    (pre : list str) (v : value) (rest : list value) :
  Forall valid_str pre -> (forall s, v <> VStr s) ->
  safe_google_results (VList (map VStr pre ++ v :: rest))
  = Raise AttributeError.
Proof.
  intros Hpre Hv. cbn [safe_google_results].
  induction Hpre as [| s pre Hs _ IH]; cbn [map app mapM encode_element].
  - destruct v as [| b | n | s | l | d]; try reflexivity.
    contradiction (Hv s). reflexivity.
  - rewrite (reencode_drops_surrogates s Hs). cbn [bind].
    destruct (mapM encode_element (map VStr pre ++ v :: rest))
      as [cleaned | e]; cbn [bind] in *; [discriminate | exact IH].
Qed.

Ltac ascii_literal :=
  unfold BACKSLASH, DQ, NL; cbn;
  repeat (constructor; [lia |]); constructor.

Ltac ascii_parts :=
  repeat (apply Forall_app; split).

Lemma hex_digit_printable (x : Z) :
  0x20 <= hex_digit (Z.land x 0xF) <= 0x7E.
Proof.
  change 0xF with (Z.ones 4). rewrite Z.land_ones by lia.
  pose proof (Z.mod_pos_bound x (2 ^ 4) ltac:(lia)) as Hb.
  change (2 ^ 4) with 16 in *. unfold hex_digit.
  destruct (Z.ltb_spec (x mod 16) 10); lia.
Qed.

Lemma hex4_printable (n : Z) : printable_ascii (hex4 n).
Proof.
  unfold hex4. repeat (constructor; [apply hex_digit_printable |]).
  constructor.
Qed.

Lemma json_escape_char_printable (c : Z) :
  printable_ascii (json_escape_char c).
Proof.
  unfold json_escape_char, printable_ascii.
  destruct (c =? 92); [ascii_literal |].
  destruct (c =? 34); [ascii_literal |].
  destruct ((0x20 <=? c) && (c <=? 0x7E)) eqn:E.
  { apply andb_prop in E as [E1 E2]. apply Z.leb_le in E1, E2.
    constructor; [lia | constructor]. }
  destruct (c =? 8); [ascii_literal |].
  destruct (c =? 12); [ascii_literal |].
  destruct (c =? 10); [ascii_literal |].
  destruct (c =? 13); [ascii_literal |].
  destruct (c =? 9); [ascii_literal |].
  destruct (c <? 0x10000); cbv zeta; ascii_parts;
    first [apply hex4_printable | ascii_literal].
Qed.

Lemma json_encode_str_printable (s : str) :
  printable_ascii (json_encode_str s).
Proof.
  unfold json_encode_str, printable_ascii.
  apply Forall_app; split; [ascii_literal |].
  apply Forall_app; split; [| ascii_literal].
  induction s as [| c s IH]; cbn [flat_map]; [constructor |].
  apply Forall_app; split; [apply json_escape_char_printable | exact IH].
Qed.

Lemma json_dumps_strings_printable (l : list str) :
  printable_ascii (json_dumps (VList (map VStr l))).
Proof.
  cbn [json_dumps]. unfold printable_ascii.
  apply Forall_app; split; [ascii_literal |].
  apply Forall_app; split; [| ascii_literal].
  induction l as [| s l IH]; [constructor |].
  cbn [map str_join json_dumps]. destruct l as [| s' l].
  - apply json_encode_str_printable.
  - apply Forall_app; split; [apply json_encode_str_printable |].
    apply Forall_app; split; [ascii_literal | exact IH].
Qed.

Lemma mapM_encode_element_inv (l : list value) (cleaned : list str) :
  mapM encode_element l = Ok cleaned ->
  exists originals,
    l = map VStr originals
    /\ Forall2 (fun s c => reencode s = Ok c) originals cleaned.
Proof.
  revert cleaned. induction l as [| v l IH]; intros cleaned H.
  - injection H as <-. exists []. split; constructor.
  - cbn [mapM] in H.
    destruct (encode_element v) as [c |] eqn:Ev; [| discriminate].
    destruct (mapM encode_element l) as [cs |]; [| discriminate].
    injection H as <-. destruct (IH cs eq_refl) as [os [-> F]].
    destruct v as [| b | n | s | l' | d]; try discriminate.
    exists (s :: os). split; [reflexivity |].
    constructor; [exact Ev | exact F].
Qed.

(** Whenever the sanitizer accepts a list, every element was a string
    and the text returned is the JSON text of a list of strings, in
    printable ASCII only. *)
Theorem safe_google_results_list_ascii (l : list value) (out : str) :
  safe_google_results (VList l) = Ok out ->
  printable_ascii out
  /\ exists originals cleaned,
       l = map VStr originals
       /\ Forall2 (fun s c => reencode s = Ok c) originals cleaned
       /\ out = json_dumps (VList (map VStr cleaned)).
Proof.
  cbn [safe_google_results]. intros H.
  destruct (mapM encode_element l) as [cleaned |] eqn:E; [| discriminate].
  injection H as <-.
  split; [apply json_dumps_strings_printable |].
  destruct (mapM_encode_element_inv l cleaned E) as [os [-> F]].
  exists os, cleaned. repeat split; assumption.
Qed.

End SanitizerOutput.

(* ================================================================== *)
(** * More on web_search: retries and the provider *)
(* ================================================================== *)

Section Retries.

Variable DDGS_text : World -> str -> Z -> pyresult (list ddgs_result).
Variable config : WebSearchConfiguration.
Variable query : str.
Variable num_results : Z.

Lemma world_after_0 (w : World) : world_after w query num_results 0 = w.
Proof.
  unfold world_after. cbn [repeat]. rewrite !app_nil_r.
  destruct w; reflexivity.
Qed.

Lemma world_after_step (w : World) (k : nat) :
  world_after (time_sleep (record_call w query num_results) 1)
    query num_results k
  = world_after w query num_results (S k).
Proof.
  unfold world_after, time_sleep, record_call.
  cbn [ddgs_calls sleeps repeat]. rewrite <- !app_assoc. reflexivity.
Qed.

(** [k] attempts that find nothing, then an answer that ends the loop. *)
Lemma loop_after_empty_attempts (k fuel : nat)
    (search_results : list ddgs_result) (attempts : Z) (w : World)
    (answer : pyresult (list ddgs_result)) :
  str_truthy query = true ->
  (k < fuel)%nat ->
  attempts + Z.of_nat k < duckduckgo_max_attempts config ->
  (forall i, (i < k)%nat ->
     DDGS_text (world_after w query num_results i) query num_results
     = Ok []) ->
  DDGS_text (world_after w query num_results k) query num_results
  = answer ->
  answer <> Ok [] ->
  web_search_loop DDGS_text fuel config query num_results
    search_results attempts w
  = (exit_of_answer answer,
     record_call (world_after w query num_results k) query num_results).
Proof.
  intros Hq. revert fuel search_results attempts w.
  induction k as [| k IH]; intros fuel sr a w Hfuel Ha Hempty Hans Hne;
    (destruct fuel as [| fuel]; [lia |]); cbn [web_search_loop];
    (destruct (Z.ltb_spec a (duckduckgo_max_attempts config)); [| lia]);
    rewrite Hq; cbn [negb].
  - rewrite world_after_0 in *. rewrite Hans.
    destruct answer as [[| r rs] | e]; try reflexivity.
    contradiction Hne. reflexivity.
  - pose proof (Hempty 0%nat ltac:(lia)) as H0.
    rewrite world_after_0 in H0. rewrite H0. cbn [list_truthy].
    rewrite (IH fuel [] (a + 1)
               (time_sleep (record_call w query num_results) 1)).
    + rewrite world_after_step. reflexivity.
    + lia.
    + lia.
    + intros i Hi. rewrite world_after_step. apply Hempty. lia.
    + rewrite world_after_step. exact Hans.
    + exact Hne.
Qed.

(** When the first [k] attempts find nothing and the next one finds
    something, [web_search] has called the provider [k + 1] times, slept
    [k] times and returns the rendering of what that attempt found. *)
Theorem web_search_retry_success (w : World) (k : nat)
    (r : ddgs_result) (rs : list ddgs_result) :
  str_truthy query = true ->
  Z.of_nat k < duckduckgo_max_attempts config ->
  (forall i, (i < k)%nat ->
     DDGS_text (world_after w query num_results i) query num_results
     = Ok []) ->
  DDGS_text (world_after w query num_results k) query num_results
  = Ok (r :: rs) ->
  web_search DDGS_text config query num_results w
  = (Some (render_results (r :: rs)),
     record_call (world_after w query num_results k) query num_results).
Proof.
  intros Hq Hk Hempty Hhit. unfold web_search, web_search_fuel.
  rewrite (loop_after_empty_attempts k _ [] 0 w (Ok (r :: rs)));
    try assumption; try lia; [reflexivity | discriminate].
Qed.

(** When the provider raises, at the first attempt or after attempts
    that found nothing, [web_search] raises the same exception: it is
    neither caught nor retried. *)
Theorem web_search_provider_error (w : World) (k : nat) (e : exn) :
  str_truthy query = true ->
  Z.of_nat k < duckduckgo_max_attempts config ->
  (forall i, (i < k)%nat ->
     DDGS_text (world_after w query num_results i) query num_results
     = Ok []) ->
  DDGS_text (world_after w query num_results k) query num_results
  = Raise e ->
  web_search DDGS_text config query num_results w
  = (Some (Raise e),
     record_call (world_after w query num_results k) query num_results).
Proof.
  intros Hq Hk Hempty Hraise. unfold web_search, web_search_fuel.
  rewrite (loop_after_empty_attempts k _ [] 0 w (Raise e));
    try assumption; try lia; [reflexivity | discriminate].
Qed.

(** Where a run can leave the world: after [k] fruitless attempts, or in
    the middle of attempt [k + 1]. *)
Lemma loop_world (fuel : nat) (search_results : list ddgs_result)
    (attempts : Z) (w : World) :
  exists k,
    (k <= Z.to_nat (duckduckgo_max_attempts config - attempts))%nat
    /\ (snd (web_search_loop DDGS_text fuel config query num_results
               search_results attempts w)
        = world_after w query num_results k
        \/ ((k < Z.to_nat (duckduckgo_max_attempts config - attempts))%nat
            /\ snd (web_search_loop DDGS_text fuel config query num_results
                      search_results attempts w)
               = record_call (world_after w query num_results k)
                   query num_results)).
Proof.
  revert search_results attempts w.
  induction fuel as [| fuel IH]; intros sr a w; cbn [web_search_loop].
  { exists 0%nat. rewrite world_after_0. cbn. split; [lia | left; easy]. }
  destruct (Z.ltb_spec a (duckduckgo_max_attempts config)) as [Hlt | Hge].
  2: { exists 0%nat. rewrite world_after_0. cbn. split; [lia | left; easy]. }
  destruct (str_truthy query); cbn [negb].
  2: { exists 0%nat. rewrite world_after_0. cbn. split; [lia | left; easy]. }
  destruct (DDGS_text w query num_results) as [[| r rs] | e];
    cbn [list_truthy snd].
  - destruct (IH [] (a + 1)
                (time_sleep (record_call w query num_results) 1))
      as [k [Hk H]].
    rewrite !world_after_step in H. exists (S k). split; [lia |].
    destruct H as [H | [Hk' H]]; [left; exact H | right].
    split; [lia | exact H].
  - exists 0%nat. rewrite world_after_0. split; [lia | right].
    split; [lia | reflexivity].
  - exists 0%nat. rewrite world_after_0. split; [lia | right].
    split; [lia | reflexivity].
Qed.

(** Whatever the provider does, [web_search] calls it at most
    [duckduckgo_max_attempts] times, each time with the query and the
    number of results it was given, and sleeps one time unit after every
    call except, possibly, the last: the world it leaves has [k] more
    calls and [k] more delays, or [k + 1] more calls and [k] delays. *)
Theorem web_search_world (w : World) :
  exists k,
    Z.of_nat k <= Z.max 0 (duckduckgo_max_attempts config)
    /\ (snd (web_search DDGS_text config query num_results w)
        = world_after w query num_results k
        \/ (Z.of_nat k < duckduckgo_max_attempts config
            /\ snd (web_search DDGS_text config query num_results w)
               = record_call (world_after w query num_results k)
                   query num_results)).
Proof.
  unfold web_search. rewrite web_search_fuel_world.
  destruct (loop_world (S (Z.to_nat (duckduckgo_max_attempts config)))
              [] 0 w) as [k [Hk H]].
  exists k. split; [lia |].
  destruct H as [H | [Hk' H]]; [left; exact H | right].
  split; [lia | exact H].
Qed.

End Retries.

(* ================================================================== *)
(** * More on rendering *)
(* ================================================================== *)

Section Blocks.

Lemma reshape_then_render (r : ddgs_result) :
  has_title_and_href r ->
  exists d, reshape_result r = Ok d /\ render_block d = Ok (block_text r).
Proof.
  unfold has_title_and_href, reshape_result, render_block, block_text,
    result_field, dict_index.
  destruct (dict_get r (lit "title")) as [title |]; [| intros [[] _]; easy].
  destruct (dict_get r (lit "href")) as [url |]; [| intros [_ []]; easy].
  intros _. cbn [bind]. eexists. split; [reflexivity |].
  destruct (dict_get r (lit "body")) as [[| c body] |]; reflexivity.
Qed.

Lemma mapM_reshape_then_render (rs : list ddgs_result) :
  Forall has_title_and_href rs ->
  exists ds,
    mapM reshape_result rs = Ok ds
    /\ mapM render_block ds = Ok (map block_text rs).
Proof.
  induction 1 as [| r rs Hr _ [ds [E1 E2]]].
  - exists []. split; reflexivity.
  - destruct (reshape_then_render r Hr) as [d [D1 D2]].
    exists (d :: ds). cbn [mapM map]. rewrite D1, E1. cbn [bind].
    rewrite D2, E2. split; reflexivity.
Qed.

(** When every result has a title and an href, rendering cannot fail
    before the sanitizer: the text handed to it is the header line
    followed by the blocks of the results, in order, with a blank line
    between two blocks.  Keys other than [title], [href] and [body] play
    no part, and a missing body and an empty one give the same block. *)
Theorem render_results_blocks (rs : list ddgs_result) :
  Forall has_title_and_href rs ->
  render_results rs
  = safe_google_results
      (VStr (SEARCH_HEADER ++ str_join (NL ++ NL) (map block_text rs))).
Proof.
  intros H. destruct (mapM_reshape_then_render rs H) as [ds [E1 E2]].
  unfold render_results. rewrite E1. cbn [bind]. rewrite E2. reflexivity.
Qed.

(** The first result without a title, or with a title and without an
    href, makes the rendering raise [KeyError] for that key. *)
Theorem render_results_missing_key
    (good : list ddgs_result) (r : ddgs_result) (rest : list ddgs_result) :
  Forall has_title_and_href good ->
  (dict_get r (lit "title") = None ->
   render_results (good ++ r :: rest) = Raise (KeyError (lit "title")))
  /\ (dict_get r (lit "title") <> None ->
      dict_get r (lit "href") = None ->
      render_results (good ++ r :: rest) = Raise (KeyError (lit "href"))).
Proof.
  intros Hgood.
  assert (Hfail : forall e,
             reshape_result r = Raise e ->
             render_results (good ++ r :: rest) = Raise e).
  { intros e He. unfold render_results.
    replace (mapM reshape_result (good ++ r :: rest)) with
      (@Raise (list (list (str * str))) e); [reflexivity |].
    induction Hgood as [| g good Hg _ IH]; cbn [app mapM].
    - rewrite He. reflexivity.
    - destruct (reshape_then_render g Hg) as [d [D _]].
      rewrite D, <- IH. reflexivity. }
  split.
  - intros Ht. apply Hfail. unfold reshape_result, dict_index.
    rewrite Ht. reflexivity.
  - intros Ht Hh. apply Hfail. unfold reshape_result, dict_index.
    destruct (dict_get r (lit "title")); [| contradiction].
    rewrite Hh. reflexivity.
Qed.

(** A result without body text, or with an empty one, is rendered with
    the excerpt line [**Excerpt:** N/A]. *)
Theorem render_results_without_excerpt (r : ddgs_result) (title url : str) :
  dict_get r (lit "title") = Some title ->
  dict_get r (lit "href") = Some url ->
  dict_get r (lit "body") = None \/ dict_get r (lit "body") = Some [] ->
  valid_str title -> no_surrogate title ->
  valid_str url -> no_surrogate url ->
  render_results [r]
  = Ok (lit "## Search results" ++ NL
        ++ lit "### " ++ DQ ++ title ++ DQ ++ NL
        ++ lit "**URL:** " ++ url ++ lit "  " ++ NL
        ++ lit "**Excerpt:** N/A").
Proof.
  intros Ht Hu Hb Vt St Vu Su.
  assert (Hkeys : Forall has_title_and_href [r]).
  { constructor; [| constructor]. unfold has_title_and_href.
    rewrite Ht, Hu. split; discriminate. }
  destruct (mapM_reshape_then_render [r] Hkeys) as [ds [E1 E2]].
  unfold render_results. rewrite E1. cbn [bind]. rewrite E2. cbn [bind].
  cbn [map str_join]. unfold block_text, result_field, SEARCH_HEADER.
  rewrite Ht, Hu.
  replace (str_truthy match dict_get r (lit "body") with
                      | Some v => v
                      | None => []
                      end) with false
    by (destruct Hb as [-> | ->]; reflexivity).
  rewrite <- !app_assoc.
  cbn [safe_google_results encode_element].
  rewrite reencode_drops_surrogates; [f_equal; apply drop_surrogates_fixed |].
  - unfold no_surrogate, NL, DQ.
    repeat (apply Forall_app; split);
      first [apply no_surrogate_lit | assumption
            | constructor; [reflexivity | constructor]].
  - unfold valid_str, NL, DQ.
    repeat (apply Forall_app; split);
      first [apply valid_lit | assumption
            | constructor; [unfold valid_codepoint; lia | constructor]].
Qed.

Lemma dict_get_valid (r : ddgs_result) (key v : str) :
  valid_result r -> dict_get r key = Some v -> valid_str v.
Proof.
  induction 1 as [| [k x] r Hx _ IH]; cbn [dict_get]; [discriminate |].
  destruct (str_eqb k key); [| exact IH].
  intros H. injection H as <-. exact Hx.
Qed.

Lemma result_field_valid (r : ddgs_result) (key : str) :
  valid_result r -> valid_str (result_field r key).
Proof.
  intros Hr. unfold result_field.
  destruct (dict_get r key) as [v |] eqn:E; [| constructor].
  exact (dict_get_valid r key v Hr E).
Qed.

Lemma block_text_valid (r : ddgs_result) :
  valid_result r -> valid_str (block_text r).
Proof.
  intros Hr. unfold block_text, valid_str, NL, DQ.
  destruct (str_truthy (result_field r (lit "body")));
    repeat (apply Forall_app; split);
    first [apply valid_lit | apply result_field_valid; exact Hr
          | constructor; [unfold valid_codepoint; lia | constructor]].
Qed.

Lemma str_join_valid (sep : str) (parts : list str) :
  valid_str sep -> Forall valid_str parts ->
  valid_str (str_join sep parts).
Proof.
  intros Hsep. induction 1 as [| p parts Hp Hparts IH]; [constructor |].
  cbn [str_join]. destruct parts as [| p' parts]; [exact Hp |].
  apply Forall_app; split; [exact Hp |].
  apply Forall_app; split; [exact Hsep | exact IH].
Qed.

(** When every result has a title and an href and holds well-formed
    strings, rendering raises nothing: it returns the header line and
    the blocks, without the surrogates the fields may have held. *)
Theorem render_results_never_fails (rs : list ddgs_result) :
  Forall has_title_and_href rs ->
  Forall valid_result rs ->
  render_results rs
  = Ok (drop_surrogates
          (SEARCH_HEADER ++ str_join (NL ++ NL) (map block_text rs))).
Proof.
  intros Hkeys Hvalid.
  destruct (mapM_reshape_then_render rs Hkeys) as [ds [E1 E2]].
  unfold render_results. rewrite E1. cbn [bind]. rewrite E2.
  cbn [bind safe_google_results encode_element].
  apply reencode_drops_surrogates.
  unfold SEARCH_HEADER, NL.
  apply Forall_app; split.
  { apply Forall_app; split; [apply valid_lit |].
    constructor; [unfold valid_codepoint; lia | constructor]. }
  apply str_join_valid.
  - repeat (constructor; [unfold valid_codepoint; lia |]). constructor.
  - apply Forall_forall. intros b Hb. apply in_map_iff in Hb as [r [<- Hr]].
    apply block_text_valid.
    rewrite Forall_forall in Hvalid. apply Hvalid, Hr.
Qed.

(** Whatever is rendered without an exception has no surrogate in it. *)
Lemma render_results_clean (rs : list ddgs_result) (out : str) :
  render_results rs = Ok out -> valid_str out /\ no_surrogate out.
Proof.
  unfold render_results.
  destruct (mapM reshape_result rs) as [ds |]; [| discriminate].
  cbn [bind].
  destruct (mapM render_block ds) as [blocks |]; [| discriminate].
  cbn [bind safe_google_results encode_element]. apply reencode_clean.
Qed.

End Blocks.

Section OutputOfWebSearch.

Variable DDGS_text : World -> str -> Z -> pyresult (list ddgs_result).
Variable config : WebSearchConfiguration.
Variable query : str.
Variable num_results : Z.

(** The early [return] is taken for the empty query only. *)
Lemma loop_returned (fuel : nat) (search_results : list ddgs_result)
    (attempts : Z) (w : World) (out : str) :
  fst (web_search_loop DDGS_text fuel config query num_results
         search_results attempts w) = Returned out ->
  query = [] /\ out = json_dumps (value_of_results search_results).
Proof.
  revert search_results attempts w.
  induction fuel as [| fuel IH]; intros sr a w; cbn [web_search_loop];
    [discriminate |].
  destruct (a <? duckduckgo_max_attempts config);
    [| discriminate].
  destruct query as [| c q] eqn:Eq; cbn [str_truthy negb].
  - intros H. injection H as <-. split; reflexivity.
  - destruct (DDGS_text w (c :: q) num_results) as [[| r rs] | e];
      cbn [list_truthy]; try discriminate.
    intros H. apply IH in H as [H _]. discriminate.
Qed.

(** Whatever the provider answers, a string [web_search] returns holds
    code points only and no surrogate: it can be encoded as UTF-8. *)
Theorem web_search_output_clean (w w' : World) (out : str) :
  web_search DDGS_text config query num_results w = (Some (Ok out), w') ->
  valid_str out /\ no_surrogate out.
Proof.
  unfold web_search, web_search_fuel.
  destruct (web_search_loop DDGS_text _ config query num_results [] 0 w)
    as [[s | sr | e |] w1] eqn:L; intros H; try discriminate.
  - injection H as <- _.
    pose proof (loop_returned
                  (S (Z.to_nat (duckduckgo_max_attempts config)))
                  [] 0 w s) as R.
    rewrite L in R.
    destruct (R eq_refl) as [_ ->].
    split; [apply (valid_lit "[]") | apply (no_surrogate_lit "[]")].
  - injection H as H _. apply render_results_clean in H. exact H.
Qed.

End OutputOfWebSearch.

(* ================================================================== *)
(** * More on google *)
(* ================================================================== *)

Section GoogleEdges.

Variable cse_list_execute : str -> str -> str -> Z -> pyresult value.
Variable json_loads : str -> pyresult value.
Variable config : WebSearchConfiguration.
Variable query : str.
Variable num_results : Z.

Variables api_key engine_id : SecretStr.
Hypothesis Hkey : google_api_key config = Some api_key.
Hypothesis Hkey_set : str_truthy (get_secret_value api_key) = true.
Hypothesis Hengine : google_custom_search_engine_id config = Some engine_id.
Hypothesis Hengine_set : str_truthy (get_secret_value engine_id) = true.

Lemma google_try_after_call (result : value) :
  cse_list_execute (get_secret_value api_key) query
    (get_secret_value engine_id) num_results = Ok result ->
  google_try cse_list_execute config query num_results
  = (search_results <- py_get result (lit "items") (VList []) ;;
     items <- py_iter search_results ;;
     mapM (fun item => py_index item (lit "link")) items).
Proof.
  intros Hcall.
  rewrite (google_try_call cse_list_execute config query num_results
             api_key engine_id Hkey Hkey_set Hengine Hengine_set).
  rewrite Hcall. reflexivity.
Qed.

Lemma google_after_failed_call (x : exn) :
  cse_list_execute (get_secret_value api_key) query
    (get_secret_value engine_id) num_results = Raise x ->
  google_try cse_list_execute config query num_results = Raise x.
Proof.
  intros Hcall.
  rewrite (google_try_call cse_list_execute config query num_results
             api_key engine_id Hkey Hkey_set Hengine Hengine_set).
  rewrite Hcall. reflexivity.
Qed.

(** A response without [items] gives the text of the empty list. *)
Theorem google_without_items (d : list (str * value)) :
  cse_list_execute (get_secret_value api_key) query
    (get_secret_value engine_id) num_results = Ok (VDict d) ->
  dict_get d (lit "items") = None ->
  google cse_list_execute json_loads config query num_results
  = Ok (VStr (lit "[]")).
Proof.
  intros Hcall Hitems. unfold google.
  rewrite (google_try_after_call _ Hcall). cbn [py_get].
  rewrite Hitems. reflexivity.
Qed.

(** The first item without a [link] makes [google] raise [KeyError]:
    the handler of [HttpError] does not catch it. *)
Theorem google_item_without_link
    (result : value) (pre : list value) (urls : list str)
    (item : list (str * value)) (rest : list value) :
  cse_list_execute (get_secret_value api_key) query
    (get_secret_value engine_id) num_results = Ok result ->
  py_get result (lit "items") (VList [])
  = Ok (VList (pre ++ VDict item :: rest)) ->
  Forall2 item_has_link pre urls ->
  dict_get item (lit "link") = None ->
  google cse_list_execute json_loads config query num_results
  = Raise (KeyError (lit "link")).
Proof.
  intros Hcall Hitems Hpre Hlink. unfold google.
  rewrite (google_try_after_call _ Hcall), Hitems. cbn [bind py_iter].
  replace (mapM (fun i => py_index i (lit "link"))
             (pre ++ VDict item :: rest))
    with (@Raise (list value) (KeyError (lit "link"))); [reflexivity |].
  clear Hitems.
  induction Hpre as [| i u pre urls [d [-> Hd]] _ IH]; cbn [app mapM].
  - cbn [py_index]. rewrite Hlink. reflexivity.
  - cbn [py_index]. rewrite Hd, <- IH. reflexivity.
Qed.

(** An exception of the API call that is not an [HttpError] leaves
    [google] as it is. *)
Theorem google_other_exception (x : exn) :
  cse_list_execute (get_secret_value api_key) query
    (get_secret_value engine_id) num_results = Raise x ->
  (forall e, x <> HttpError e) ->
  google cse_list_execute json_loads config query num_results = Raise x.
Proof.
  intros Hcall Hx. unfold google.
  rewrite (google_after_failed_call x Hcall).
  destruct x; try reflexivity. contradiction (Hx e). reflexivity.
Qed.

Lemma google_handles_http_error (e : HttpErrorData) :
  cse_list_execute (get_secret_value api_key) query
    (get_secret_value engine_id) num_results = Raise (HttpError e) ->
  google cse_list_execute json_loads config query num_results
  = google_except json_loads e.
Proof.
  intros Hcall. unfold google.
  rewrite (google_after_failed_call _ Hcall). reflexivity.
Qed.


(** Code 403 and no [message]: the default message is empty, and the
    [HttpError] is raised again. *)
Theorem google_forbidden_without_message
    (e : HttpErrorData) (text : str) (details error : list (str * value)) :
  cse_list_execute (get_secret_value api_key) query
    (get_secret_value engine_id) num_results = Raise (HttpError e) ->
  decode_utf8 (http_content e) = Ok text ->
  json_loads text = Ok (VDict details) ->
  dict_get details (lit "error") = Some (VDict error) ->
  dict_get error (lit "code") = Some (VInt 403) ->
  dict_get error (lit "message") = None ->
  google cse_list_execute json_loads config query num_results
  = Raise (HttpError e).
Proof.
  intros Hcall Htext Hloads Herror Hcode Hmessage.
  rewrite (google_handles_http_error e Hcall).
  unfold google_except. rewrite Htext. cbn [bind].
  rewrite Hloads. cbn [bind py_get]. rewrite Herror. cbn [bind py_get].
  rewrite Hcode. cbn [bind py_eq_int Z.eqb Pos.eqb].
  rewrite Hmessage. reflexivity.
Qed.

(** Code 403 and a [message] that is [null], a number or a truth value:
    the test for the substring raises [TypeError], and neither the
    [ConfigurationError] nor the [HttpError] is raised. *)
Theorem google_forbidden_message_not_text
    (e : HttpErrorData) (text : str) (details error : list (str * value))
    (message : value) :
  cse_list_execute (get_secret_value api_key) query
    (get_secret_value engine_id) num_results = Raise (HttpError e) ->
  decode_utf8 (http_content e) = Ok text ->
  json_loads text = Ok (VDict details) ->
  dict_get details (lit "error") = Some (VDict error) ->
  dict_get error (lit "code") = Some (VInt 403) ->
  dict_get error (lit "message") = Some message ->
  message = VNone \/ (exists b, message = VBool b)
  \/ (exists n, message = VInt n) ->
  google cse_list_execute json_loads config query num_results
  = Raise TypeError.
Proof.
  intros Hcall Htext Hloads Herror Hcode Hmessage Hkind.
  rewrite (google_handles_http_error e Hcall).
  unfold google_except. rewrite Htext. cbn [bind].
  rewrite Hloads. cbn [bind py_get]. rewrite Herror. cbn [bind py_get].
  rewrite Hcode. cbn [bind py_eq_int Z.eqb Pos.eqb].
  rewrite Hmessage. cbn [bind].
  destruct Hkind as [-> | [[b ->] | [n ->]]]; reflexivity.
Qed.

(** The handler of [HttpError] never returns: it always raises. *)
Lemma google_except_raises (e : HttpErrorData) (v : value) :
  google_except json_loads e <> Ok v.
Proof.
  unfold google_except.
  destruct (decode_utf8 (http_content e)) as [text |]; [| discriminate].
  cbn [bind].
  destruct (json_loads text) as [details |]; [| discriminate].
  cbn [bind].
  destruct (py_get details (lit "error") (VDict [])) as [error |];
    [| discriminate].
  cbn [bind].
  destruct (py_get error (lit "code") VNone) as [code |]; [| discriminate].
  cbn [bind].
  destruct (py_eq_int code 403); [| discriminate].
  destruct (py_get error (lit "message") (VStr [])) as [message |];
    [| discriminate].
  cbn [bind].
  destruct (py_contains (lit "invalid API key") message) as [[|] |];
    discriminate.
Qed.

(** Whatever the API and the JSON decoder do, a value [google] returns
    is one string of printable ASCII, the JSON text of a list of
    strings: never a list, never text with a raw non-ASCII or control
    character. *)
Theorem google_output_ascii (v : value) :
  google cse_list_execute json_loads config query num_results = Ok v ->
  exists out cleaned,
    v = VStr out
    /\ out = json_dumps (VList (map VStr cleaned))
    /\ printable_ascii out.
Proof.
  unfold google.
  destruct (google_try cse_list_execute config query num_results)
    as [links | x].
  - destruct (safe_google_results (VList links)) as [out |] eqn:E;
      [| discriminate].
    cbn [bind]. intros H. injection H as <-.
    cbn [safe_google_results] in E.
    destruct (mapM encode_element links) as [cleaned |]; [| discriminate].
    injection E as <-.
    exists (json_dumps (VList (map VStr cleaned))), cleaned.
    split; [reflexivity |]. split; [reflexivity |].
    apply json_dumps_strings_printable.
  - destruct x; try discriminate.
    intros H. contradiction (google_except_raises e v H).
Qed.

End GoogleEdges.

Section Gating.

Lemma not_advertised (config : WebSearchConfiguration) :
  ~ In cmd_google (get_commands config) <->
  secret_truthy (google_api_key config)
  && secret_truthy (google_custom_search_engine_id config) = false.
Proof.
  unfold get_commands.
  destruct (secret_truthy (google_api_key config)
            && secret_truthy (google_custom_search_engine_id config));
    cbn [app In]; split.
  - intros H. contradiction H. right. left. reflexivity.
  - discriminate.
  - reflexivity.
  - intros _ [H | []]. discriminate.
Qed.

(** [google] fails its own assertions, whatever the API would answer,
    exactly for the configurations for which [get_commands] does not
    offer it. *)
Theorem google_asserts_iff_not_advertised (config : WebSearchConfiguration) :
  (forall cse_list_execute json_loads query num_results,
     google cse_list_execute json_loads config query num_results
     = Raise AssertionError)
  <-> ~ In cmd_google (get_commands config).
Proof.
  rewrite not_advertised. split.
  - intros H.
    specialize (H (fun _ _ _ _ => Ok (VDict [])) (fun _ => Ok VNone)
                  [] default_num_results).
    unfold google, google_try, secret_truthy in *.
    destruct (google_api_key config) as [k |]; [| reflexivity].
    destruct (str_truthy (get_secret_value k)); [| reflexivity].
    destruct (google_custom_search_engine_id config) as [c |];
      [| reflexivity].
    destruct (str_truthy (get_secret_value c)); [| reflexivity].
    discriminate.
  - intros H cse jl q n. unfold google, google_try, secret_truthy in *.
    destruct (google_api_key config) as [k |]; [| reflexivity].
    destruct (str_truthy (get_secret_value k)); [| reflexivity].
    destruct (google_custom_search_engine_id config) as [c |];
      [| reflexivity].
    destruct (str_truthy (get_secret_value c)); [| reflexivity].
    discriminate.
Qed.

(** The constructor logs its hint exactly when [get_commands] does not
    offer [google], and nothing otherwise. *)
Theorem init_logs_iff_not_advertised (config : WebSearchConfiguration) :
  (In cmd_google (get_commands config) ->
   WebSearchComponent_init config = [])
  /\ (~ In cmd_google (get_commands config) ->
      WebSearchComponent_init config = [GOOGLE_SETUP_HINT]).
Proof.
  unfold WebSearchComponent_init. split.
  - intros H.
    destruct (secret_truthy (google_api_key config)
              && secret_truthy (google_custom_search_engine_id config))
      eqn:E.
    + apply andb_prop in E as [-> ->]. reflexivity.
    + apply not_advertised in E. contradiction.
  - intros H. apply not_advertised in H.
    apply andb_false_iff in H as [-> | ->]; cbn [negb orb];
      [reflexivity | rewrite orb_true_r; reflexivity].
Qed.

End Gating.

(* ================================================================== *)
(** * The further theorems at sample inputs *)
(* ================================================================== *)

Lemma decode_utf8_strict_witness :
  decode_utf8 [0xC3; 0xA9; 0x21] = Ok [0xE9; 0x21]
  /\ encode_utf8_ignore [0xE9; 0x21] = [0xC3; 0xA9; 0x21]
  /\ valid_str [0xE9; 0x21]
  /\ no_surrogate [0xE9; 0x21].
Proof.
  assert (H : decode_utf8 [0xC3; 0xA9; 0x21] = Ok [0xE9; 0x21])
    by (vm_compute; reflexivity).
  split; [exact H |].
  exact (decode_utf8_strict [0xC3; 0xA9; 0x21] [0xE9; 0x21] H).
Defined.

Lemma safe_google_results_str_clean_witness :
  safe_google_results (VStr [0x41; 0xD800; 0x42]) = Ok [0x41; 0x42]
  /\ valid_str [0x41; 0x42]
  /\ no_surrogate [0x41; 0x42].
Proof.
  assert (H : safe_google_results (VStr [0x41; 0xD800; 0x42])
              = Ok [0x41; 0x42])
    by (vm_compute; reflexivity).
  split; [exact H |].
  exact (safe_google_results_str_clean [0x41; 0xD800; 0x42] [0x41; 0x42] H).
Defined.

Lemma safe_google_results_fixed_iff_witness :
  valid_str [0x41; 0xD800; 0x42]
  /\ (safe_google_results (VStr [0x41; 0xD800; 0x42])
      = Ok [0x41; 0xD800; 0x42]
      <-> no_surrogate [0x41; 0xD800; 0x42]).
Proof.
  split; [exact valid_with_surrogate |].
  exact (safe_google_results_fixed_iff [0x41; 0xD800; 0x42]
           valid_with_surrogate).
Defined.

Lemma safe_google_results_rejects_mixed_list_witness :
  Forall valid_str [lit "a"]
  /\ (forall s, VInt 1 <> VStr s)
  /\ safe_google_results
       (VList (map VStr [lit "a"] ++ VInt 1 :: [VStr (lit "b")]))
     = Raise AttributeError.
Proof.
  assert (Hpre : Forall valid_str [lit "a"])
    by (constructor; [apply valid_lit | constructor]).
  assert (Hv : forall s, VInt 1 <> VStr s) by (intros s; discriminate).
  split; [exact Hpre |]. split; [exact Hv |].
  exact (safe_google_results_rejects_mixed_list
           [lit "a"] (VInt 1) [VStr (lit "b")] Hpre Hv).
Defined.

Lemma safe_google_results_list_ascii_witness :
  safe_google_results (VList [VStr [0xE9]])
  = Ok (lit "[" ++ DQ ++ BACKSLASH ++ lit "u00e9" ++ DQ ++ lit "]")
  /\ printable_ascii
       (lit "[" ++ DQ ++ BACKSLASH ++ lit "u00e9" ++ DQ ++ lit "]").
Proof.
  assert (H : safe_google_results (VList [VStr [0xE9]])
              = Ok (lit "[" ++ DQ ++ BACKSLASH ++ lit "u00e9" ++ DQ
                    ++ lit "]"))
    by (vm_compute; reflexivity).
  split; [exact H |].
  exact (proj1 (safe_google_results_list_ascii [VStr [0xE9]] _ H)).
Defined.

Lemma web_search_retry_success_witness :
  str_truthy (lit "x") = true
  /\ Z.of_nat 2 < duckduckgo_max_attempts default_config
  /\ web_search provider_third_time default_config (lit "x")
       default_num_results initial_world
     = (Some (render_results [result_A]),
        record_call
          (world_after initial_world (lit "x") default_num_results 2)
          (lit "x") default_num_results).
Proof.
  assert (Hq : str_truthy (lit "x") = true) by reflexivity.
  assert (Hk : Z.of_nat 2 < duckduckgo_max_attempts default_config)
    by (cbn; lia).
  split; [exact Hq |]. split; [exact Hk |].
  refine (web_search_retry_success provider_third_time default_config
            (lit "x") default_num_results initial_world 2 result_A []
            Hq Hk _ eq_refl).
  intros [| [| i]] Hi; [reflexivity | reflexivity | lia].
Defined.

Lemma web_search_provider_error_witness :
  str_truthy (lit "x") = true
  /\ Z.of_nat 1 < duckduckgo_max_attempts default_config
  /\ web_search provider_then_fails default_config (lit "x")
       default_num_results initial_world
     = (Some (Raise (LibraryError (lit "RatelimitException"))),
        record_call
          (world_after initial_world (lit "x") default_num_results 1)
          (lit "x") default_num_results).
Proof.
  assert (Hq : str_truthy (lit "x") = true) by reflexivity.
  assert (Hk : Z.of_nat 1 < duckduckgo_max_attempts default_config)
    by (cbn; lia).
  split; [exact Hq |]. split; [exact Hk |].
  refine (web_search_provider_error provider_then_fails default_config
            (lit "x") default_num_results initial_world 1
            (LibraryError (lit "RatelimitException")) Hq Hk _ eq_refl).
  intros [| i] Hi; [reflexivity | lia].
Defined.

Lemma has_title_and_href_A : has_title_and_href result_A.
Proof. split; discriminate. Qed.

Lemma has_title_and_href_B : has_title_and_href result_B.
Proof. split; discriminate. Qed.

Lemma render_results_blocks_witness :
  Forall has_title_and_href [result_A; result_B]
  /\ render_results [result_A; result_B]
     = safe_google_results
         (VStr (SEARCH_HEADER
                ++ str_join (NL ++ NL)
                     (map block_text [result_A; result_B]))).
Proof.
  assert (H : Forall has_title_and_href [result_A; result_B]).
  { constructor; [exact has_title_and_href_A |].
    constructor; [exact has_title_and_href_B | constructor]. }
  split; [exact H |].
  exact (render_results_blocks [result_A; result_B] H).
Defined.

Lemma render_results_never_fails_witness :
  Forall has_title_and_href
    [[(lit "title", [0x41; 0xD800]); (lit "href", lit "u1")]; result_B]
  /\ Forall valid_result
       [[(lit "title", [0x41; 0xD800]); (lit "href", lit "u1")]; result_B]
  /\ render_results
       [[(lit "title", [0x41; 0xD800]); (lit "href", lit "u1")]; result_B]
     = Ok (drop_surrogates
             (SEARCH_HEADER
              ++ str_join (NL ++ NL)
                   (map block_text
                      [[(lit "title", [0x41; 0xD800]);
                        (lit "href", lit "u1")];
                       result_B]))).
Proof.
  assert (Hk : Forall has_title_and_href
                 [[(lit "title", [0x41; 0xD800]); (lit "href", lit "u1")];
                  result_B]).
  { constructor; [split; discriminate |].
    constructor; [exact has_title_and_href_B | constructor]. }
  assert (Hv : Forall valid_result
                 [[(lit "title", [0x41; 0xD800]); (lit "href", lit "u1")];
                  result_B]).
  { constructor; [| constructor; [| constructor]].
    - constructor; [| constructor; [apply valid_lit | constructor]].
      repeat (constructor; [unfold valid_codepoint; lia |]). constructor.
    - constructor; [apply valid_lit |].
      constructor; [apply valid_lit | constructor]. }
  split; [exact Hk |]. split; [exact Hv |].
  exact (render_results_never_fails _ Hk Hv).
Defined.

Lemma render_results_missing_key_witness :
  Forall has_title_and_href [result_A]
  /\ dict_get result_untitled (lit "title") = None
  /\ render_results ([result_A] ++ result_untitled :: [result_B])
     = Raise (KeyError (lit "title")).
Proof.
  assert (H : Forall has_title_and_href [result_A])
    by (constructor; [exact has_title_and_href_A | constructor]).
  split; [exact H |]. split; [reflexivity |].
  exact (proj1 (render_results_missing_key [result_A] result_untitled
                  [result_B] H) eq_refl).
Defined.

Lemma render_results_without_excerpt_witness :
  dict_get result_B (lit "title") = Some (lit "B")
  /\ dict_get result_B (lit "href") = Some (lit "u2")
  /\ dict_get result_B (lit "body") = None
  /\ render_results [result_B]
     = Ok (lit "## Search results" ++ NL
           ++ lit "### " ++ DQ ++ lit "B" ++ DQ ++ NL
           ++ lit "**URL:** " ++ lit "u2" ++ lit "  " ++ NL
           ++ lit "**Excerpt:** N/A").
Proof.
  repeat (split; [reflexivity |]).
  exact (render_results_without_excerpt result_B (lit "B") (lit "u2")
           eq_refl eq_refl (or_introl eq_refl)
           (valid_lit "B") (no_surrogate_lit "B")
           (valid_lit "u2") (no_surrogate_lit "u2")).
Defined.

Lemma web_search_output_clean_witness :
  web_search provider_one_hit default_config (lit "A") default_num_results
    initial_world
  = (Some (Ok actual_rendering_A),
     mkWorld [(lit "A", default_num_results)] [])
  /\ valid_str actual_rendering_A
  /\ no_surrogate actual_rendering_A.
Proof.
  assert (H : web_search provider_one_hit default_config (lit "A")
                default_num_results initial_world
              = (Some (Ok actual_rendering_A),
                 mkWorld [(lit "A", default_num_results)] []))
    by (vm_compute; reflexivity).
  split; [exact H |].
  exact (web_search_output_clean provider_one_hit default_config (lit "A")
           default_num_results initial_world _ actual_rendering_A H).
Defined.

Lemma google_without_items_witness :
  api_without_items (lit "key") (lit "q") (lit "cx") default_num_results
  = Ok (VDict [(lit "kind", VStr (lit "customsearch#search"))])
  /\ google api_without_items sample_json_loads config_with_credentials
       (lit "q") default_num_results
     = Ok (VStr (lit "[]")).
Proof.
  split; [reflexivity |].
  exact (google_without_items api_without_items sample_json_loads
           config_with_credentials (lit "q") default_num_results
           (Secret (lit "key")) (Secret (lit "cx"))
           eq_refl eq_refl eq_refl eq_refl
           [(lit "kind", VStr (lit "customsearch#search"))]
           eq_refl eq_refl).
Defined.

Lemma google_item_without_link_witness :
  Forall2 item_has_link [item_with_link (lit "u1")] [lit "u1"]
  /\ google api_item_without_link sample_json_loads
       config_with_credentials (lit "q") default_num_results
     = Raise (KeyError (lit "link")).
Proof.
  assert (H : Forall2 item_has_link [item_with_link (lit "u1")] [lit "u1"]).
  { constructor; [| constructor]. eexists. split; reflexivity. }
  split; [exact H |].
  exact (google_item_without_link api_item_without_link sample_json_loads
           config_with_credentials (lit "q") default_num_results
           (Secret (lit "key")) (Secret (lit "cx"))
           eq_refl eq_refl eq_refl eq_refl
           _ [item_with_link (lit "u1")] [lit "u1"]
           [(lit "title", VStr (lit "T"))] [item_with_link (lit "u3")]
           eq_refl eq_refl H eq_refl).
Defined.

Lemma google_other_exception_witness :
  api_unreachable (lit "key") (lit "q") (lit "cx") default_num_results
  = Raise (LibraryError (lit "TimeoutError"))
  /\ google api_unreachable sample_json_loads config_with_credentials
       (lit "q") default_num_results
     = Raise (LibraryError (lit "TimeoutError")).
Proof.
  split; [reflexivity |].
  refine (google_other_exception api_unreachable sample_json_loads
            config_with_credentials (lit "q") default_num_results
            (Secret (lit "key")) (Secret (lit "cx"))
            eq_refl eq_refl eq_refl eq_refl
            (LibraryError (lit "TimeoutError")) eq_refl _).
  intros e. discriminate.
Defined.


Lemma google_forbidden_without_message_witness :
  decode_utf8 (http_content (http_error_of 403 payload_forbidden_bare))
  = Ok (json_dumps payload_forbidden_bare)
  /\ json_loads_of payload_forbidden_bare
       (json_dumps payload_forbidden_bare)
     = Ok payload_forbidden_bare
  /\ google (api_raising (http_error_of 403 payload_forbidden_bare))
       (json_loads_of payload_forbidden_bare) config_with_credentials
       (lit "q") default_num_results
     = Raise (HttpError (http_error_of 403 payload_forbidden_bare)).
Proof.
  assert (Htext : decode_utf8
                    (http_content (http_error_of 403 payload_forbidden_bare))
                  = Ok (json_dumps payload_forbidden_bare))
    by (vm_compute; reflexivity).
  assert (Hloads : json_loads_of payload_forbidden_bare
                     (json_dumps payload_forbidden_bare)
                   = Ok payload_forbidden_bare)
    by (vm_compute; reflexivity).
  split; [exact Htext |]. split; [exact Hloads |].
  exact (google_forbidden_without_message
           (api_raising (http_error_of 403 payload_forbidden_bare))
           (json_loads_of payload_forbidden_bare)
           config_with_credentials (lit "q") default_num_results
           (Secret (lit "key")) (Secret (lit "cx"))
           eq_refl eq_refl eq_refl eq_refl
           (http_error_of 403 payload_forbidden_bare)
           (json_dumps payload_forbidden_bare)
           [(lit "error", VDict [(lit "code", VInt 403)])]
           [(lit "code", VInt 403)]
           eq_refl Htext Hloads eq_refl eq_refl eq_refl).
Defined.

Lemma google_forbidden_message_not_text_witness :
  decode_utf8 (http_content (http_error_of 403 payload_forbidden_null))
  = Ok (json_dumps payload_forbidden_null)
  /\ json_loads_of payload_forbidden_null
       (json_dumps payload_forbidden_null)
     = Ok payload_forbidden_null
  /\ google (api_raising (http_error_of 403 payload_forbidden_null))
       (json_loads_of payload_forbidden_null) config_with_credentials
       (lit "q") default_num_results
     = Raise TypeError.
Proof.
  assert (Htext : decode_utf8
                    (http_content (http_error_of 403 payload_forbidden_null))
                  = Ok (json_dumps payload_forbidden_null))
    by (vm_compute; reflexivity).
  assert (Hloads : json_loads_of payload_forbidden_null
                     (json_dumps payload_forbidden_null)
                   = Ok payload_forbidden_null)
    by (vm_compute; reflexivity).
  split; [exact Htext |]. split; [exact Hloads |].
  exact (google_forbidden_message_not_text
           (api_raising (http_error_of 403 payload_forbidden_null))
           (json_loads_of payload_forbidden_null)
           config_with_credentials (lit "q") default_num_results
           (Secret (lit "key")) (Secret (lit "cx"))
           eq_refl eq_refl eq_refl eq_refl
           (http_error_of 403 payload_forbidden_null)
           (json_dumps payload_forbidden_null)
           [(lit "error",
             VDict [(lit "code", VInt 403); (lit "message", VNone)])]
           [(lit "code", VInt 403); (lit "message", VNone)]
           VNone
           eq_refl Htext Hloads eq_refl eq_refl eq_refl
           (or_introl eq_refl)).
Defined.

Lemma google_unparsable_error_body_witness :
  decode_utf8 (http_content error_gateway)
  = Ok (lit "<html>Bad Gateway</html>")
  /\ sample_json_loads (lit "<html>Bad Gateway</html>")
     = Raise JSONDecodeError
  /\ google (api_raising error_gateway) sample_json_loads
       config_with_credentials (lit "q") default_num_results
     = Raise JSONDecodeError.
Proof.
  assert (Htext : decode_utf8 (http_content error_gateway)
                  = Ok (lit "<html>Bad Gateway</html>"))
    by (vm_compute; reflexivity).
  assert (Hloads : sample_json_loads (lit "<html>Bad Gateway</html>")
                   = Raise JSONDecodeError)
    by (vm_compute; reflexivity).
  split; [exact Htext |]. split; [exact Hloads |].
  exact (google_unparsable_error_body
           (api_raising error_gateway) sample_json_loads
           config_with_credentials (lit "q") default_num_results
           (Secret (lit "key")) (Secret (lit "cx"))
           eq_refl eq_refl eq_refl eq_refl
           error_gateway (lit "<html>Bad Gateway</html>") JSONDecodeError
           eq_refl Htext Hloads).
Defined.

Lemma google_output_ascii_witness :
  google api_one_link sample_json_loads config_with_credentials
    (lit "q") default_num_results
  = Ok (VStr (lit "[" ++ DQ ++ lit "u1" ++ DQ ++ lit "]"))
  /\ exists out cleaned,
       VStr (lit "[" ++ DQ ++ lit "u1" ++ DQ ++ lit "]") = VStr out
       /\ out = json_dumps (VList (map VStr cleaned))
       /\ printable_ascii out.
Proof.
  assert (H : google api_one_link sample_json_loads
                config_with_credentials (lit "q") default_num_results
              = Ok (VStr (lit "[" ++ DQ ++ lit "u1" ++ DQ ++ lit "]")))
    by (vm_compute; reflexivity).
  split; [exact H |].
  exact (google_output_ascii api_one_link sample_json_loads
           config_with_credentials (lit "q") default_num_results _ H).
Defined.

Lemma init_logs_iff_not_advertised_witness :
  ~ In cmd_google (get_commands default_config)
  /\ WebSearchComponent_init default_config = [GOOGLE_SETUP_HINT].
Proof.
  assert (H : ~ In cmd_google (get_commands default_config)).
  { cbn. intros [H | []]. discriminate. }
  split; [exact H |].
  exact (proj2 (init_logs_iff_not_advertised default_config) H).
Defined.

